(** * chronos: the Ontology (entities and their dependency graph)

    A shallow embedding of [chronos/ontology.py] together with the boundary
    contracts of the collaborators it imports ([change_algebra]) and of the
    scheduler that reads it ([navigator]).

    Modelling conventions.
    - A Python [dict] is an insertion-ordered association list with unique
      keys ([dict_set] overwrites in place, appends otherwise), because
      [entities()] and [dependents_of] iterate dictionaries in order.
    - A [ChangeSet] is a mutable object: it lives in a store ([heap]) and is
      named by a reference, so that the two names [timeline] and
      [ent.timeline] of [Ontology.spawn] denote one object.
    - An [Entity] is passed by value; a method that assigns to one of its
      fields returns the updated record (explicit state passing).
    - Functions are objects held by reference ([callable]); what a generator
      computes is given by a table [gens].  Following the data model
      ("a pure function Entity -> ChangeSet"), a generator reads its entity
      and the store and either raises, returns [None], or returns a newly
      built ChangeSet.
    - The module [Effectful] gives [regenerate] and [spawn] without that
      assumption: there a generator acts on the entity object and on the
      store, as Python lets it. *)

From Stdlib Require Import ZArith Floats.PrimFloat.
From stdpp Require Import base option list relations strings.

Set Default Proof Using "Type".
Set Warnings "-inexact-float".

(** ** Python values, exceptions and results *)

Inductive pyval : Type :=
  | PyNone
  | PyInt (z : Z)
  | PyFloat (f : float)
  | PyStr (s : string).

(** [KeyError] is the only exception [ontology.py] raises itself; a generator
    may raise anything ([PyException cls msg]); [CycleError] belongs to the
    scheduler. *)
Inductive exn : Type :=
  | KeyError (arg : string)
  | CycleError (msg : string)
  | PyException (cls msg : string).

Inductive result (A : Type) : Type :=
  | Ok (a : A)
  | Raise (e : exn).
Arguments Ok {A} a.
Arguments Raise {A} e.

Definition is_Ok {A} (r : result A) : Prop :=
  match r with Ok _ => True | Raise _ => False end.

Definition is_KeyError {A} (r : result A) : Prop :=
  match r with Raise (KeyError _) => True | _ => False end.

(** [t0: float | datetime]; a datetime is kept as its POSIX timestamp. *)
Inductive timestamp : Type :=
  | TFloat (f : float)
  | TDatetime (posix : float).

(** ** Insertion-ordered dictionaries with [str] keys *)

Abbreviation dict V := (list (string * V)) (only parsing).

Section dict.
Context {V : Type}.

(** [d.get(k)] *)
Fixpoint dict_get (d : dict V) (k : string) : option V :=
  match d with
  | [] => None
  | (k', v) :: d' => if decide (k' = k) then Some v else dict_get d' k
  end.

(** [k in d] *)
Definition dict_contains (d : dict V) (k : string) : bool :=
  match dict_get d k with Some _ => true | None => false end.

(** [d[k] = v]: an existing key keeps its position, a new key goes last. *)
Fixpoint dict_set (d : dict V) (k : string) (v : V) : dict V :=
  match d with
  | [] => [(k, v)]
  | (k', v') :: d' =>
      if decide (k' = k) then (k, v) :: d' else (k', v') :: dict_set d' k v
  end.

Definition dict_items (d : dict V) : list (string * V) := d.
Definition dict_keys (d : dict V) : list string := d.*1.
Definition dict_values (d : dict V) : list V := d.*2.

(** [d[k]], which raises [KeyError(k)] on a missing key. *)
Definition dict_getitem (d : dict V) (k : string) : result V :=
  match dict_get d k with
  | Some v => Ok v
  | None => Raise (KeyError k)
  end.
End dict.

(** ** change_algebra: events and event collections *)

Module ChangeEvent.
(** Modelled from the spec: the class [ChangeEvent] of
    [chronos/change_algebra.py], "immutable value with fields eid, t0, dt,
    prob, meta; no behavior beyond field access". *)
Record t : Type := mk {
  eid : string;
  t0 : timestamp;
  dt : float;
  prob : float;
  meta : dict pyval;
}.
End ChangeEvent.

(** References to [ChangeSet] objects, and the store holding their events. *)
Abbreviation ref := nat (only parsing).
Abbreviation heap := (list (list ChangeEvent.t)) (only parsing).

Module ChangeSet.
(** Modelled from the spec: the constructor [ChangeSet(events)] of the class
    [ChangeSet] of [chronos/change_algebra.py], "an ordered, mutable container
    of ChangeEvent, ... constructible from an initial sequence".  It makes a
    new object. *)
Definition new (events : list ChangeEvent.t) (h : heap) : ref * heap :=
  (length h, h ++ [events]).

(** Modelled from the spec: [list(cs)] for a [ChangeSet], "iteration in
    insertion order". *)
Definition events (h : heap) (cs : ref) : list ChangeEvent.t :=
  default [] (h !! cs).

(** Modelled from the spec: [ChangeSet.add(event)], which mutates the object
    in place; the event goes last. *)
Definition add (cs : ref) (ev : ChangeEvent.t) (h : heap) : heap :=
  alter (λ evs, evs ++ [ev]) cs h.

(** Modelled from the spec: the truth value of a [ChangeSet], "if the
    generator returns a non-empty ChangeSet it replaces the seeded
    timeline": an empty one is false. *)
Definition truthy (h : heap) (cs : ref) : bool :=
  match events h cs with [] => false | _ :: _ => true end.
End ChangeSet.

(** ** ontology.py *)

Module Schema.
Record t : Type := mk {
  type_id : string;
  mean_period : float;
  default_dt : float;
  description : string;
  meta : option (dict pyval);
}.
End Schema.

(** A function object, held by reference. *)
Abbreviation callable := nat (only parsing).

Module Entity.
Record t : Type := mk {
  eid : string;
  schema : Schema.t;
  goal : ChangeEvent.t;
  timeline : ref;
  generator : callable;
  priority : Z;
}.

(** [self.timeline = tl] *)
Definition set_timeline (self : t) (tl : ref) : t :=
  mk (eid self) (schema self) (goal self) tl (generator self) (priority self).
End Entity.

(** What calling a generator on an entity yields: an exception, [None], or
    the events of the ChangeSet it builds. *)
Definition gen_table : Type :=
  callable → Entity.t → heap → result (option (list ChangeEvent.t)).

Record Ontology : Type := mkOntology {
  _schemas : dict Schema.t;
  _entities : dict Entity.t;
  _deps : dict (dict string);
}.

(** [Ontology()] *)
Definition Ontology_init : Ontology := mkOntology [] [] [].

Section ontology.
Variable gens : gen_table.

(** *** Ontology: schemas *)

Definition add_schema (self : Ontology) (schema : Schema.t)
  : result unit * Ontology :=
  if dict_contains (_schemas self) (Schema.type_id schema) then
    (Raise (KeyError ("Schema '" +:+ Schema.type_id schema +:+ "' already exists")),
     self)
  else
    (Ok tt,
     mkOntology (dict_set (_schemas self) (Schema.type_id schema) schema)
                (_entities self) (_deps self)).

Definition schema (self : Ontology) (type_id : string) : result Schema.t :=
  dict_getitem (_schemas self) type_id.

(** *** Ontology: the dependency graph *)

(** [self._deps[k]] on a [defaultdict(dict)]: a missing key is first bound to
    a new empty dictionary. *)
Definition defaultdict_getitem (d : dict (dict string)) (k : string)
  : dict string * dict (dict string) :=
  match dict_get d k with
  | Some inner => (inner, d)
  | None => ([], dict_set d k [])
  end.

(** [kind] defaults to ["supports"]. *)
Definition add_dependency (self : Ontology) (depender dependee kind : string)
  : result unit * Ontology :=
  if negb (dict_contains (_entities self) depender)
     || negb (dict_contains (_entities self) dependee) then
    (Raise (KeyError "Both entities must exist before linking"), self)
  else
    let '(inner, deps) := defaultdict_getitem (_deps self) depender in
    (* the inner dictionary is shared with [deps]: the item assignment is
       seen through [deps] *)
    let deps := dict_set deps depender (dict_set inner dependee kind) in
    (Ok tt, mkOntology (_schemas self) (_entities self) deps).

Definition dependencies_of (self : Ontology) (eid : string)
  : list (string * string) :=
  dict_items (default [] (dict_get (_deps self) eid)).

Definition dependents_of (self : Ontology) (eid : string)
  : list (string * string) :=
  '(depender, d) ← dict_items (_deps self);
  '(dependee, kind) ← dict_items d;
  if decide (dependee = eid) then [(depender, kind)] else [].

Definition entities (self : Ontology) : list Entity.t :=
  dict_values (_entities self).

(** *** Entity *)

Definition dependencies (self : Entity.t) (ont : Ontology)
  : list (string * string) :=
  dependencies_of ont (Entity.eid self).

Definition dependents (self : Entity.t) (ont : Ontology)
  : list (string * string) :=
  dependents_of ont (Entity.eid self).

(** [sum(xs)] *)
Definition py_sum (xs : list Z) : Z := foldl Z.add 0%Z xs.

Definition effective_priority (self : Entity.t) (ont : Ontology) : Z :=
  let pull := py_sum ((λ _, 1%Z) <$> dependents self ont) in
  (Entity.priority self + pull)%Z.

(** [f(ent)] for a generator [f]: the ChangeSet it builds, if any, becomes a
    new object of the store. *)
Definition call_generator (f : callable) (ent : Entity.t) (h : heap)
  : result (option ref) * heap :=
  match gens f ent h with
  | Raise e => (Raise e, h)
  | Ok None => (Ok None, h)
  | Ok (Some evs) =>
      let '(cs, h) := ChangeSet.new evs h in (Ok (Some cs), h)
  end.

(** [x or y] where [x] is a ChangeSet or [None] and [y] a ChangeSet. *)
Definition py_or (h : heap) (x : option ref) (y : ref) : ref :=
  match x with
  | Some cs => if ChangeSet.truthy h cs then cs else y
  | None => y
  end.

(** [self.timeline = self.generator(self) or self.timeline]; the entity after
    the call is returned next to the outcome. *)
Definition regenerate (self : Entity.t) (h : heap)
  : result unit * Entity.t * heap :=
  match call_generator (Entity.generator self) self h with
  | (Raise e, h) => (Raise e, self, h)
  | (Ok ret, h) =>
      (Ok tt, Entity.set_timeline self (py_or h ret (Entity.timeline self)), h)
  end.

(** *** Ontology: spawn *)

(** The goal event built by [spawn]:
    [ChangeEvent(f"{entity_id}::goal::{goal_name}", t0, dt=0.0, prob=1.0,
                 meta={"priority": priority})]. *)
Definition goal_event (entity_id goal_name : string) (t0 : timestamp)
  (priority : Z) : ChangeEvent.t :=
  let goal_eid := entity_id +:+ "::goal::" +:+ goal_name in
  ChangeEvent.mk goal_eid t0 0%float 1%float [("priority", PyInt priority)].

(** [t0] defaults to [0.0] and [priority] to [0]. *)
Definition spawn (self : Ontology) (entity_id type_id goal_name : string)
  (generator_fn : callable) (t0 : timestamp) (priority : Z) (h : heap)
  : result Entity.t * Ontology * heap :=
  if dict_contains (_entities self) entity_id then
    (Raise (KeyError ("Entity '" +:+ entity_id +:+ "' already exists")), self, h)
  else
    match schema self type_id with
    | Raise e => (Raise e, self, h)
    | Ok schema =>
        let goal_ev := goal_event entity_id goal_name t0 priority in
        let '(timeline, h) := ChangeSet.new [] h in
        let ent :=
          Entity.mk entity_id schema goal_ev timeline generator_fn priority in
        (* [timeline] and [ent.timeline] are the same object *)
        let h := ChangeSet.add timeline goal_ev h in
        match call_generator generator_fn ent h with
        | (Raise e, h) => (Raise e, self, h)
        | (Ok ret, h) =>
            let timeline := py_or h ret timeline in
            let ent := Entity.set_timeline ent timeline in
            let self :=
              mkOntology (_schemas self)
                         (dict_set (_entities self) entity_id ent)
                         (_deps self) in
            (Ok ent, self, h)
        end
    end.

End ontology.

(** ** navigator.py: the schedule merge *)

Section navigator.
(** Modelled from the spec: the scoring capability of [InnovationMetric]
    ([chronos/manifold.py]), "a scoring capability over an Entity or candidate
    ChangeSet contribution, returning a single comparable real number; higher
    is preferred by the merge algorithm".  The formula is the collaborator's. *)
Variable score : list ChangeEvent.t → float.

(** Modelled from the spec: the numeric value of an event's [t0]
    ("float or timestamp"), which [Navigator] compares and offsets. *)
Definition ts_value (t : timestamp) : float :=
  match t with TFloat f => f | TDatetime p => p end.

(** Modelled from the spec: [t0] moved later by [gap]. *)
Definition ts_shift (gap : float) (t : timestamp) : timestamp :=
  match t with
  | TFloat f => TFloat (f + gap)
  | TDatetime p => TDatetime (p + gap)
  end.

(** Modelled from the spec: an event of [Navigator.multi_entity_schedule]
    "offset" by [gap]; only [t0] moves. *)
Definition shift_event (gap : float) (ev : ChangeEvent.t) : ChangeEvent.t :=
  ChangeEvent.mk (ChangeEvent.eid ev) (ts_shift gap (ChangeEvent.t0 ev))
    (ChangeEvent.dt ev) (ChangeEvent.prob ev) (ChangeEvent.meta ev).

(** Modelled from the spec: the "end time (t0+dt)" of an event. *)
Definition end_time (ev : ChangeEvent.t) : float :=
  (ts_value (ChangeEvent.t0 ev) + ChangeEvent.dt ev)%float.

(** Modelled from the spec: the later of two times, for "the latest end
    time" of [Navigator.multi_entity_schedule]. *)
Definition float_max (a b : float) : float := if (a <? b)%float then b else a.

(** Modelled from the spec: the earlier of two times, for "an entity's
    earliest event" of [Navigator.multi_entity_schedule]. *)
Definition float_min (a b : float) : float := if (b <? a)%float then b else a.

(** Modelled from the spec: "the latest end time" over the events given,
    [None] when there is none. *)
Definition max_of (xs : list float) : option float :=
  match xs with [] => None | x :: xs => Some (foldl float_max x xs) end.

(** Modelled from the spec: the start of the "earliest event" over the events
    given, [None] when there is none. *)
Definition min_of (xs : list float) : option float :=
  match xs with [] => None | x :: xs => Some (foldl float_min x xs) end.

(** Modelled from the spec: step 1 of [Navigator.multi_entity_schedule], an
    entity is eligible once every entity it depends on has been merged ("no
    unresolved dependency"). *)
Definition eligible (ont : Ontology) (merged : list string) (e : Entity.t)
  : bool :=
  forallb (λ '(dependee, _), bool_decide (dependee ∈ merged))
          (dependencies e ont).

(** Modelled from the spec: the tie-break of [Navigator], "higher effective
    priority scheduled earlier", then "the entity with the higher score is
    merged first"; on a full tie the entity spawned first stays first. *)
Definition prefer (ont : Ontology) (h : heap) (a b : Entity.t) : bool :=
  let pa := effective_priority a ont in
  let pb := effective_priority b ont in
  let sa := score (ChangeSet.events h (Entity.timeline a)) in
  let sb := score (ChangeSet.events h (Entity.timeline b)) in
  (pb <? pa)%Z || ((pa =? pb)%Z && negb (sa <? sb)%float).

(** Modelled from the spec: the choice among the "simultaneously eligible"
    entities of [Navigator.multi_entity_schedule]: the preferred eligible
    entity of [remaining], with the others in their order; [None] when no
    entity is eligible. *)
Fixpoint select_next (ont : Ontology) (h : heap) (merged : list string)
  (remaining : list Entity.t) : option (Entity.t * list Entity.t) :=
  match remaining with
  | [] => None
  | e :: rest =>
      match select_next ont h merged rest with
      | None => if eligible ont merged e then Some (e, rest) else None
      | Some (b, rest') =>
          if eligible ont merged e && prefer ont h e b
          then Some (e, rest) else Some (b, e :: rest')
      end
  end.

(** Modelled from the spec: step 1 of [Navigator.multi_entity_schedule], the
    topological ordering.  One entity is placed per round, for as many rounds
    as there are entities; a round that finds entities left but none eligible
    has found a cycle and "fails with a CycleError". *)
Fixpoint topological_rounds (ont : Ontology) (h : heap) (rounds : nat)
  (remaining : list Entity.t) (merged : list string)
  : result (list Entity.t) :=
  match rounds with
  | 0 => Ok []
  | S rounds =>
      match select_next ont h merged remaining with
      | None => Raise (CycleError "dependency cycle")
      | Some (e, rest) =>
          match topological_rounds ont h rounds rest (Entity.eid e :: merged) with
          | Ok order => Ok (e :: order)
          | Raise err => Raise err
          end
      end
  end.

(** Modelled from the spec: step 1 of [Navigator.multi_entity_schedule],
    "compute a topological ordering of entities over the dependency graph",
    starting from all entities in spawn order with none merged. *)
Definition topological_order (ont : Ontology) (h : heap)
  : result (list Entity.t) :=
  topological_rounds ont h (length (entities ont)) (entities ont) [].

(** Modelled from the spec: step 2 of [Navigator.multi_entity_schedule] for
    one entity.  [finish] maps a merged entity to "the latest end time
    (t0+dt)" of its contributed events.  When the entity's earliest event
    would start before a dependee has finished, "one explicit slack event
    (identifier prefixed slack, t0 = the point of resumption, dt = the size of
    the gap, prob=1.0)" goes "immediately before that entity's events", which
    are offset by the gap. *)
Definition merge_entity (ont : Ontology) (h : heap)
  (acc : list ChangeEvent.t * dict float) (e : Entity.t)
  : list ChangeEvent.t * dict float :=
  let '(combined, finish) := acc in
  let evs := ChangeSet.events h (Entity.timeline e) in
  let ready :=
    max_of (omap (λ '(dependee, _), dict_get finish dependee)
                 (dependencies e ont)) in
  let start := min_of (ts_value ∘ ChangeEvent.t0 <$> evs) in
  let '(slack, contributed) :=
    match ready, start with
    | Some r, Some s =>
        if (s <? r)%float then
          let gap := (r - s)%float in
          ([ChangeEvent.mk ("slack::" +:+ Entity.eid e) (TFloat r) gap 1 []],
           shift_event gap <$> evs)
        else ([], evs)
    | _, _ => ([], evs)
    end in
  let finish :=
    match max_of (end_time <$> contributed) with
    | Some t => dict_set finish (Entity.eid e) t
    | None => finish
    end in
  (combined ++ slack ++ contributed, finish).

(** Modelled from the spec: [Navigator.multi_entity_schedule(ontology)] of
    [chronos/navigator.py]: order the entities, merge them in that order, and
    return the combined timeline "as a single ChangeSet"; the Ontology is not
    mutated. *)
Definition multi_entity_schedule (ont : Ontology) (h : heap)
  : result ref * heap :=
  match topological_order ont h with
  | Raise err => (Raise err, h)
  | Ok order =>
      let '(combined, _) := foldl (merge_entity ont h) ([], []) order in
      let '(cs, h) := ChangeSet.new combined h in
      (Ok cs, h)
  end.

End navigator.

(** ** examples/dependency_quickstart.py *)

Module Quickstart.

Definition tea_schema : Schema.t :=
  Schema.mk "tea-party" 5 0.5 "A tea party with Vogons" (Some []).
Definition whale_schema : Schema.t :=
  Schema.mk "whale" 10 0.2 "A spontaneous whale appearance" (Some []).
Definition petunia_schema : Schema.t :=
  Schema.mk "petunia" 15 0.1 "A petunia uprising" (Some []).

Definition tea_generator : callable := 0.
Definition whale_generator : callable := 1.
Definition petunia_generator : callable := 2.

(** The three generators of the example, and two more used below: one that
    returns [None] and one that raises. *)
Definition none_generator : callable := 3.
Definition failing_generator : callable := 4.

Definition gens : gen_table := λ f _ _,
  match f with
  | 0 => Ok (Some [ChangeEvent.mk "tea-party-with-Vogon" (TFloat 0) 0.5 1 []])
  | 1 => Ok (Some [ChangeEvent.mk "spontaneous-whale-appearance" (TFloat 0) 0.2 1 []])
  | 2 => Ok (Some [ChangeEvent.mk "petunia-uprising" (TFloat 0) 0.1 1 []])
  | 3 => Ok None
  | _ => Raise (PyException "RuntimeError" "generator failed")
  end.

Definition onto_schemas : Ontology :=
  let onto := Ontology_init in
  let onto := (add_schema onto tea_schema).2 in
  let onto := (add_schema onto whale_schema).2 in
  (add_schema onto petunia_schema).2.

Definition spawn_tea : result Entity.t * Ontology * heap :=
  spawn gens onto_schemas "tea_entity" "tea-party" "tea-party-with-Vogon"
    tea_generator (TFloat 0) 0 [].
Definition spawn_whale : result Entity.t * Ontology * heap :=
  spawn gens spawn_tea.1.2 "whale_entity" "whale" "spontaneous-whale-appearance"
    whale_generator (TFloat 0) 0 spawn_tea.2.
Definition spawn_petunia : result Entity.t * Ontology * heap :=
  spawn gens spawn_whale.1.2 "petunia_entity" "petunia" "petunia-uprising"
    petunia_generator (TFloat 0) 0 spawn_whale.2.

Definition onto_spawned : Ontology := spawn_petunia.1.2.
Definition store : heap := spawn_petunia.2.

Definition onto_whale_tea : Ontology :=
  (add_dependency onto_spawned "whale_entity" "tea_entity" "supports").2.
Definition onto : Ontology :=
  (add_dependency onto_whale_tea "petunia_entity" "whale_entity" "supports").2.

(** The two-entity cycle: the tea entity made to depend on the whale, which
    depends on it. *)
Definition onto_cycle : Ontology :=
  (add_dependency onto_whale_tea "tea_entity" "whale_entity" "supports").2.

(** A stand-in for [InnovationMetric(...).score]: the scope (event count). *)
Definition scope_score (evs : list ChangeEvent.t) : float :=
  foldl (λ acc _, (acc + 1)%float) 0%float evs.

End Quickstart.

(** ** Vocabulary of the properties *)

(** The states an Ontology goes through: created empty, then changed only by
    its own methods, whether a call succeeds or fails. *)
Inductive reachable (gens : gen_table) : Ontology → Prop :=
  | reach_init : reachable gens Ontology_init
  | reach_add_schema self schema :
      reachable gens self → reachable gens (add_schema self schema).2
  | reach_spawn self entity_id type_id goal_name generator_fn t0 priority h :
      reachable gens self →
      reachable gens
        (spawn gens self entity_id type_id goal_name generator_fn t0 priority h).1.2
  | reach_add_dependency self depender dependee kind :
      reachable gens self →
      reachable gens (add_dependency self depender dependee kind).2.

(** Keys are unique, an entity is stored under its own [eid], and both ends of
    every stored edge are registered entities. *)
Record ont_wf (ont : Ontology) : Prop := mk_ont_wf {
  wf_schemas_keys : NoDup (dict_keys (_schemas ont));
  wf_entities_keys : NoDup (dict_keys (_entities ont));
  wf_entities_eid : ∀ k e, (k, e) ∈ _entities ont → Entity.eid e = k;
  wf_deps_keys : NoDup (dict_keys (_deps ont));
  wf_deps_inner : ∀ a d, (a, d) ∈ _deps ont → NoDup (dict_keys d);
  wf_deps_depender :
    ∀ a d, (a, d) ∈ _deps ont → a ∈ dict_keys (_entities ont);
  wf_deps_dependee :
    ∀ a d b, (a, d) ∈ _deps ont → b ∈ dict_keys d →
             b ∈ dict_keys (_entities ont);
}.

(** The stored edge [depender -> dependee] labelled [kind]. *)
Definition edge (ont : Ontology) (depender dependee kind : string) : Prop :=
  ∃ d, (depender, d) ∈ _deps ont ∧ (dependee, kind) ∈ d.

(** [a] depends on [b]; a cycle is a non-empty path of such steps from an
    entity back to itself. *)
Definition depends (ont : Ontology) (a b : string) : Prop :=
  ∃ kind, (b, kind) ∈ dependencies_of ont a.

Definition acyclic (ont : Ontology) : Prop := ∀ a, ¬ tc (depends ont) a a.

(** The entity as [spawn] has built it when it calls the generator, and the
    store at that moment: the timeline is the new object, holding the goal
    event only. *)
Definition seeded_entity (schema : Schema.t) (entity_id goal_name : string)
  (generator_fn : callable) (t0 : timestamp) (priority : Z) (h : heap)
  : Entity.t :=
  Entity.mk entity_id schema (goal_event entity_id goal_name t0 priority)
            (length h) generator_fn priority.

Definition seeded_heap (entity_id goal_name : string) (t0 : timestamp)
  (priority : Z) (h : heap) : heap :=
  h ++ [[goal_event entity_id goal_name t0 priority]].

(** The entries that one depender, with its dictionary [d] of dependees,
    contributes to [dependents_of eid]. *)
Definition incoming_from (eid depender : string) (d : dict string)
  : list (string * string) :=
  '(dependee, kind) ← dict_items d;
  if decide (dependee = eid) then [(depender, kind)] else [].

(** An event as [multi_entity_schedule] places it: unchanged, or offset by
    some gap. *)
Definition placed (ev ev' : ChangeEvent.t) : Prop :=
  ev' = ev ∨ ∃ gap, ev' = shift_event gap ev.

(** ** Generators that act on the entity they are given *)

(** [spawn] and [regenerate] hand the generator the Entity object itself, and
    [Entity] is a dataclass that is not frozen: a generator can assign the
    entity's fields, add events to a ChangeSet in place (the entity's timeline
    included), and return [None], a ChangeSet it builds or one that exists
    already.  [gen_effect] gives, for a call, what it returns or raises, the
    entity as the call leaves it and the store as the call leaves it.  (A
    generator that reaches the Ontology itself through a closure stays
    outside.) *)
Definition gen_effect : Type :=
  callable → Entity.t → heap → result (option ref) * Entity.t * heap.

(** The generators of a [gen_table] as effects: the entity is left as it was
    and the store only gains the ChangeSet returned. *)
Definition pure_effect (gens : gen_table) : gen_effect :=
  λ f ent h, let '(r, h') := call_generator gens f ent h in (r, ent, h').

Module Effectful.
Section effectful.
Variable invoke : gen_effect.

(** [self.timeline = self.generator(self) or self.timeline]: the generator
    is looked up on the entity before the call; [self.timeline] after [or] is
    read after the call, and the assignment is to the entity as the call left
    it.  An exception leaves what the generator did before it raised. *)
Definition regenerate (self : Entity.t) (h : heap)
  : result unit * Entity.t * heap :=
  match invoke (Entity.generator self) self h with
  | (Raise e, self, h) => (Raise e, self, h)
  | (Ok ret, self, h) =>
      (Ok tt, Entity.set_timeline self (py_or h ret (Entity.timeline self)), h)
  end.

(** [Ontology.spawn]; after the call [timeline] is still the local name of
    the seeded ChangeSet, and the entity is registered under the argument
    [entity_id]. *)
Definition spawn (self : Ontology) (entity_id type_id goal_name : string)
  (generator_fn : callable) (t0 : timestamp) (priority : Z) (h : heap)
  : result Entity.t * Ontology * heap :=
  if dict_contains (_entities self) entity_id then
    (Raise (KeyError ("Entity '" +:+ entity_id +:+ "' already exists")), self, h)
  else
    match schema self type_id with
    | Raise e => (Raise e, self, h)
    | Ok schema =>
        let goal_ev := goal_event entity_id goal_name t0 priority in
        let '(timeline, h) := ChangeSet.new [] h in
        let ent :=
          Entity.mk entity_id schema goal_ev timeline generator_fn priority in
        (* [timeline] and [ent.timeline] are the same object *)
        let h := ChangeSet.add timeline goal_ev h in
        match invoke generator_fn ent h with
        | (Raise e, _, h) => (Raise e, self, h)
        | (Ok ret, ent, h) =>
            let timeline := py_or h ret timeline in
            let ent := Entity.set_timeline ent timeline in
            let self :=
              mkOntology (_schemas self)
                         (dict_set (_entities self) entity_id ent)
                         (_deps self) in
            (Ok ent, self, h)
        end
    end.

End effectful.
End Effectful.

(** Three generators that act on their entity, as Python would write them:
    [add_in_place] is [lambda e: e.timeline.add(sneaked)] (which returns
    [None]), [set_priority] assigns [e.priority = 99] and returns [None],
    [quiet] is [lambda e: None]. *)
Module Mutators.

Definition sneaked : ChangeEvent.t :=
  ChangeEvent.mk "sneaked" (TFloat 0) 0 1 [].

Definition add_in_place : callable := 0.
Definition set_priority : callable := 1.
Definition quiet : callable := 2.

Definition effects : gen_effect := λ f ent h,
  match f with
  | 0 => (Ok None, ent, ChangeSet.add (Entity.timeline ent) sneaked h)
  | 1 =>
      (Ok None,
       Entity.mk (Entity.eid ent) (Entity.schema ent) (Entity.goal ent)
                 (Entity.timeline ent) (Entity.generator ent) 99,
       h)
  | _ => (Ok None, ent, h)
  end.

End Mutators.

(** ** Vocabulary of the further properties *)

(** One call of a method that can change the Ontology, whatever its
    outcome. *)
Inductive call (gens : gen_table) : Ontology → Ontology → Prop :=
  | call_add_schema self schema :
      call gens self (add_schema self schema).2
  | call_spawn self entity_id type_id goal_name generator_fn t0 priority h :
      call gens self
        (spawn gens self entity_id type_id goal_name generator_fn t0 priority h).1.2
  | call_add_dependency self depender dependee kind :
      call gens self (add_dependency self depender dependee kind).2.

(** [later gens self self']: [self'] is [self] after any number of calls. *)
Definition later (gens : gen_table) : Ontology → Ontology → Prop :=
  rtc (call gens).

(** * Properties *)

(** ** Dictionaries *)

Section dict_facts.
Context {V : Type}.
Implicit Types (d : dict V) (k : string) (v : V).

Lemma dict_get_None d k : dict_get d k = None ↔ k ∉ dict_keys d.
Proof.
  unfold dict_keys. induction d as [|[k' v'] d IH]; simpl.
  - split; [intros _; apply not_elem_of_nil | done].
  - rewrite not_elem_of_cons. case_decide; subst.
    + split; [done | intros [? _]; done].
    + rewrite IH. split; [intros ?; split; auto | intros [_ ?]; done].
Qed.

Lemma dict_get_Some_elem d k v : dict_get d k = Some v → (k, v) ∈ d.
Proof.
  induction d as [|[k' v'] d IH]; simpl; [done |].
  case_decide; subst.
  - intros [= ->]. apply elem_of_cons; auto.
  - intros ?. apply elem_of_cons; auto.
Qed.

Lemma dict_elem_get d k v :
  NoDup (dict_keys d) → (k, v) ∈ d → dict_get d k = Some v.
Proof.
  unfold dict_keys. induction d as [|[k' v'] d IH]; simpl.
  - intros _ H. by apply elem_of_nil in H.
  - rewrite NoDup_cons. intros [Hk Hd] [[= -> ->] | Hin]%elem_of_cons.
    + by rewrite decide_True.
    + rewrite decide_False; [auto |].
      intros ->. apply Hk. apply (list_elem_of_fmap_2 fst _ _ Hin).
Qed.

Lemma dict_contains_true d k : dict_contains d k = true ↔ k ∈ dict_keys d.
Proof.
  unfold dict_contains. destruct (dict_get d k) eqn:E.
  - split; [intros _ | done].
    apply dict_get_Some_elem in E. apply (list_elem_of_fmap_2 fst _ _ E).
  - apply dict_get_None in E. split; [done | intros ?; done].
Qed.

Lemma dict_contains_false d k : dict_contains d k = false ↔ k ∉ dict_keys d.
Proof.
  rewrite <- dict_contains_true. destruct (dict_contains d k); split; congruence.
Qed.

Lemma dict_get_set_eq d k v : dict_get (dict_set d k v) k = Some v.
Proof.
  induction d as [|[k' v'] d IH]; simpl.
  - by rewrite decide_True.
  - case_decide; simpl; subst; [by rewrite decide_True | by rewrite decide_False].
Qed.

Lemma dict_get_set_ne d k k' v :
  k ≠ k' → dict_get (dict_set d k v) k' = dict_get d k'.
Proof.
  intros Hne. induction d as [|[k0 v0] d IH]; simpl.
  - by rewrite decide_False.
  - case_decide; simpl; subst.
    + by rewrite !decide_False.
    + by rewrite IH.
Qed.

(** An assignment keeps the keys, or adds the new key last. *)
Lemma dict_keys_set d k v :
  dict_keys (dict_set d k v) =
  if dict_contains d k then dict_keys d else dict_keys d ++ [k].
Proof.
  unfold dict_keys, dict_contains.
  induction d as [|[k' v'] d IH]; csimpl; [done |].
  case_decide; csimpl; subst; [done |].
  rewrite IH. by destruct (dict_get d k).
Qed.

Lemma dict_keys_set_elem d k v k' :
  k' ∈ dict_keys (dict_set d k v) ↔ k' = k ∨ k' ∈ dict_keys d.
Proof.
  rewrite dict_keys_set. destruct (dict_contains d k) eqn:E.
  - apply dict_contains_true in E. split; [auto | intros [-> | ?]; auto].
  - rewrite elem_of_app, list_elem_of_singleton. tauto.
Qed.

Lemma dict_set_NoDup d k v :
  NoDup (dict_keys d) → NoDup (dict_keys (dict_set d k v)).
Proof.
  intros Hd. rewrite dict_keys_set. destruct (dict_contains d k) eqn:E; [done |].
  apply dict_contains_false in E.
  apply NoDup_app. split_and!; [done | | apply NoDup_singleton].
  intros x Hx ->%list_elem_of_singleton. done.
Qed.

(** Every item after an assignment is the assigned one or was there before. *)
Lemma dict_set_elem_inv d k v k' v' :
  (k', v') ∈ dict_set d k v → (k', v') = (k, v) ∨ (k', v') ∈ d.
Proof.
  induction d as [|[k0 v0] d IH]; simpl.
  - intros ->%list_elem_of_singleton. auto.
  - case_decide; subst; rewrite !elem_of_cons; [tauto |].
    intros [-> | Hin]; [auto |]. destruct (IH Hin); auto.
Qed.

Lemma dict_set_elem_new d k v : (k, v) ∈ dict_set d k v.
Proof. apply dict_get_Some_elem, dict_get_set_eq. Qed.

Lemma dict_set_elem_old d k v k' v' :
  k' ≠ k → (k', v') ∈ d → (k', v') ∈ dict_set d k v.
Proof.
  intros Hne. induction d as [|[k0 v0] d IH]; simpl.
  - by intros ?%elem_of_nil.
  - case_decide; subst; rewrite !elem_of_cons.
    + intros [[= -> ->] | ?]; [done | auto].
    + intros [-> | ?]; auto.
Qed.

End dict_facts.

(** ** The store *)

Lemma events_new evs (h : heap) : ChangeSet.events (h ++ [evs]) (length h) = evs.
Proof.
  unfold ChangeSet.events. by rewrite lookup_app_r, Nat.sub_diag by lia.
Qed.

Lemma events_new_old evs (h : heap) cs :
  cs < length h → ChangeSet.events (h ++ [evs]) cs = ChangeSet.events h cs.
Proof. intros Hcs. unfold ChangeSet.events. by rewrite lookup_app_l. Qed.

Lemma truthy_new evs (h : heap) :
  ChangeSet.truthy (h ++ [evs]) (length h)
  = match evs with [] => false | _ :: _ => true end.
Proof. unfold ChangeSet.truthy. by rewrite events_new. Qed.

(** [spawn]'s first two store operations: a new empty ChangeSet, then the goal
    event added to it. *)
Lemma seed_store ev (h : heap) :
  ChangeSet.add (length h) ev (h ++ [[]]) = h ++ [[ev]].
Proof.
  unfold ChangeSet.add.
  induction h as [|x h IH]; simpl; [done |]. f_equal. apply IH.
Qed.

Lemma seeded_events schema entity_id goal_name generator_fn t0 priority h :
  ChangeSet.events (seeded_heap entity_id goal_name t0 priority h)
    (Entity.timeline
       (seeded_entity schema entity_id goal_name generator_fn t0 priority h))
  = [goal_event entity_id goal_name t0 priority].
Proof.
  unfold seeded_heap, seeded_entity; cbn [Entity.timeline]. apply events_new.
Qed.

(** ** Calling a generator *)

Section generator_facts.
Variable gens : gen_table.

Lemma call_generator_None f ent h :
  gens f ent h = Ok None → call_generator gens f ent h = (Ok None, h).
Proof. unfold call_generator. by intros ->. Qed.

Lemma call_generator_Raise f ent h e :
  gens f ent h = Raise e → call_generator gens f ent h = (Raise e, h).
Proof. unfold call_generator. by intros ->. Qed.

(** ** spawn, step by step *)

Lemma spawn_duplicate self entity_id type_id goal_name generator_fn t0 priority h :
  dict_contains (_entities self) entity_id = true →
  spawn gens self entity_id type_id goal_name generator_fn t0 priority h
  = (Raise (KeyError ("Entity '" +:+ entity_id +:+ "' already exists")), self, h).
Proof. unfold spawn. by intros ->. Qed.

Lemma spawn_unknown_schema self entity_id type_id goal_name generator_fn t0 priority h :
  dict_contains (_entities self) entity_id = false →
  dict_contains (_schemas self) type_id = false →
  spawn gens self entity_id type_id goal_name generator_fn t0 priority h
  = (Raise (KeyError type_id), self, h).
Proof.
  unfold spawn, schema, dict_getitem, dict_contains. intros -> E.
  by destruct (dict_get (_schemas self) type_id).
Qed.

(** Past its two checks, [spawn] calls the generator on the seeded entity and
    finishes from what the call yields. *)
Lemma spawn_run self entity_id type_id goal_name generator_fn t0 priority h s :
  dict_contains (_entities self) entity_id = false →
  schema self type_id = Ok s →
  spawn gens self entity_id type_id goal_name generator_fn t0 priority h
  = let ent0 := seeded_entity s entity_id goal_name generator_fn t0 priority h in
    match call_generator gens generator_fn ent0
            (seeded_heap entity_id goal_name t0 priority h) with
    | (Raise e, h') => (Raise e, self, h')
    | (Ok ret, h') =>
        let ent := Entity.set_timeline ent0 (py_or h' ret (length h)) in
        (Ok ent,
         mkOntology (_schemas self) (dict_set (_entities self) entity_id ent)
                    (_deps self),
         h')
    end.
Proof.
  unfold spawn, ChangeSet.new. intros -> ->.
  cbv beta iota zeta. rewrite seed_store. reflexivity.
Qed.

Lemma spawn_cases (self : Ontology) (entity_id type_id : string) :
  (dict_contains (_entities self) entity_id = true)
  ∨ (dict_contains (_entities self) entity_id = false
     ∧ dict_contains (_schemas self) type_id = false)
  ∨ (dict_contains (_entities self) entity_id = false
     ∧ ∃ s, schema self type_id = Ok s).
Proof.
  destruct (dict_contains (_entities self) entity_id); [auto |].
  right. unfold schema, dict_getitem, dict_contains.
  destruct (dict_get (_schemas self) type_id); eauto.
Qed.

(** Case analysis along [spawn]'s control flow: the duplicate check fires,
    the schema lookup fails, or the generator is called. *)
Ltac spawn_paths self entity_id type_id :=
  let Hd := fresh "Hd" in
  let Hs := fresh "Hs" in
  let s := fresh "s" in
  destruct (spawn_cases self entity_id type_id)
    as [Hd | [[Hd Hs] | [Hd [s Hs]]]];
  [ rewrite spawn_duplicate by exact Hd
  | rewrite spawn_unknown_schema by first [exact Hd | exact Hs]
  | rewrite (spawn_run _ _ _ _ _ _ _ _ _ Hd Hs); cbv zeta ].

(** A failing [spawn] leaves the Ontology as it was. *)
Lemma spawn_Raise_unchanged self entity_id type_id goal_name generator_fn t0 priority h e :
  (spawn gens self entity_id type_id goal_name generator_fn t0 priority h).1.1
  = Raise e →
  (spawn gens self entity_id type_id goal_name generator_fn t0 priority h).1.2
  = self.
Proof.
  spawn_paths self entity_id type_id; [done | done |].
  by destruct (call_generator _ _ _ _) as [[ret|e'] h'].
Qed.

(** What a successful [spawn] has done. *)
Lemma spawn_Ok_inv self entity_id type_id goal_name generator_fn t0 priority h ent self' h' :
  spawn gens self entity_id type_id goal_name generator_fn t0 priority h
  = (Ok ent, self', h') →
  dict_contains (_entities self) entity_id = false ∧
  ∃ s ret,
    schema self type_id = Ok s ∧
    call_generator gens generator_fn
      (seeded_entity s entity_id goal_name generator_fn t0 priority h)
      (seeded_heap entity_id goal_name t0 priority h) = (Ok ret, h') ∧
    ent = Entity.set_timeline
            (seeded_entity s entity_id goal_name generator_fn t0 priority h)
            (py_or h' ret (length h)) ∧
    self' = mkOntology (_schemas self)
              (dict_set (_entities self) entity_id ent) (_deps self).
Proof.
  spawn_paths self entity_id type_id; [done | done |].
  destruct (call_generator _ _ _ _) as [[ret|e'] h1] eqn:Hcall; [| done].
  intros [= <- <- <-]. split; [done |]. by eexists _, ret.
Qed.

End generator_facts.

(** ** The dependency graph *)

Lemma dict_set_set {V} (d : dict V) k v v' :
  dict_set (dict_set d k v) k v' = dict_set d k v'.
Proof.
  induction d as [|[k0 v0] d IH]; simpl.
  - by rewrite decide_True.
  - case_decide; simpl; subst; [by rewrite decide_True |].
    rewrite decide_False by done. by rewrite IH.
Qed.

Lemma add_dependency_missing self depender dependee kind :
  dict_contains (_entities self) depender = false
  ∨ dict_contains (_entities self) dependee = false →
  add_dependency self depender dependee kind
  = (Raise (KeyError "Both entities must exist before linking"), self).
Proof. unfold add_dependency. by intros [-> | ->]; rewrite ?orb_true_r. Qed.

(** A successful [add_dependency] rebinds [depender] to its dictionary of
    dependees with [dependee] set to [kind]. *)
Lemma add_dependency_Ok self depender dependee kind :
  dict_contains (_entities self) depender = true →
  dict_contains (_entities self) dependee = true →
  add_dependency self depender dependee kind
  = (Ok tt,
     mkOntology (_schemas self) (_entities self)
       (dict_set (_deps self) depender
          (dict_set (dependencies_of self depender) dependee kind))).
Proof.
  unfold add_dependency, defaultdict_getitem, dependencies_of, dict_items.
  intros -> ->. simpl.
  destruct (dict_get (_deps self) depender) as [inner|]; simpl; [done |].
  by rewrite dict_set_set.
Qed.

Lemma add_dependency_cases self depender dependee kind :
  add_dependency self depender dependee kind
  = (Raise (KeyError "Both entities must exist before linking"), self)
  ∨ (dict_contains (_entities self) depender = true
     ∧ dict_contains (_entities self) dependee = true
     ∧ add_dependency self depender dependee kind
       = (Ok tt,
          mkOntology (_schemas self) (_entities self)
            (dict_set (_deps self) depender
               (dict_set (dependencies_of self depender) dependee kind)))).
Proof.
  destruct (dict_contains (_entities self) depender) eqn:Ha;
    [| left; apply add_dependency_missing; auto].
  destruct (dict_contains (_entities self) dependee) eqn:Hb;
    [| left; apply add_dependency_missing; auto].
  right. split_and!; [done | done |]. by apply add_dependency_Ok.
Qed.

Lemma dependencies_of_set schemas ents deps a inner :
  dependencies_of (mkOntology schemas ents (dict_set deps a inner)) a = inner.
Proof.
  unfold dependencies_of, dict_items; simpl. by rewrite dict_get_set_eq.
Qed.

Lemma dependencies_of_set_ne schemas ents deps a a' inner :
  a ≠ a' →
  dependencies_of (mkOntology schemas ents (dict_set deps a inner)) a'
  = dependencies_of (mkOntology schemas ents deps) a'.
Proof.
  intros. unfold dependencies_of, dict_items; simpl.
  by rewrite dict_get_set_ne.
Qed.

(** The incoming edges are exactly the stored edges that end in [eid]. *)
Lemma elem_of_dependents_of self eid depender kind :
  (depender, kind) ∈ dependents_of self eid ↔ edge self depender eid kind.
Proof.
  unfold dependents_of, edge, dict_items. rewrite list_elem_of_bind. split.
  - intros [[a d] [Hin Had]]. apply list_elem_of_bind in Hin.
    destruct Hin as [[b k] [Hin Hbk]]. case_decide; subst.
    + apply list_elem_of_singleton in Hin as [= -> ->]. eauto.
    + by apply elem_of_nil in Hin.
  - intros [d [Had Hbk]]. exists (depender, d). split; [| done].
    apply list_elem_of_bind. exists (eid, kind). split; [| done].
    rewrite decide_True by done. by apply list_elem_of_singleton.
Qed.

(** With unique keys the outgoing edges are the stored edges that start in
    [eid]. *)
Lemma elem_of_dependencies_of self eid dependee kind :
  NoDup (dict_keys (_deps self)) →
  (dependee, kind) ∈ dependencies_of self eid ↔ edge self eid dependee kind.
Proof.
  intros Hnd. unfold dependencies_of, edge, dict_items. split.
  - destruct (dict_get (_deps self) eid) as [d|] eqn:E; simpl.
    + intros ?. exists d. split; [by apply dict_get_Some_elem | done].
    + by intros ?%elem_of_nil.
  - intros [d [Had Hbk]]. by rewrite (dict_elem_get _ _ _ Hnd Had).
Qed.

(** ** The invariant of reachable states *)

Lemma ont_wf_init : ont_wf Ontology_init.
Proof.
  split; simpl; try apply NoDup_nil_2; by intros * ?%elem_of_nil.
Qed.

Lemma add_schema_wf self schema : ont_wf self → ont_wf (add_schema self schema).2.
Proof.
  intros [H1 H2 H3 H4 H5 H6 H7]. unfold add_schema.
  destruct (dict_contains _ _); [done |].
  split; simpl; auto using dict_set_NoDup.
Qed.

Lemma add_dependency_wf self depender dependee kind :
  ont_wf self → ont_wf (add_dependency self depender dependee kind).2.
Proof.
  intros Hwf.
  destruct (add_dependency_cases self depender dependee kind)
    as [-> | (Ha & Hb & ->)]; [done |].
  destruct Hwf as [H1 H2 H3 H4 H5 H6 H7].
  apply dict_contains_true in Ha, Hb.
  assert (Hinner : NoDup (dict_keys (dependencies_of self depender))).
  { unfold dependencies_of, dict_items.
    destruct (dict_get (_deps self) depender) as [d|] eqn:E; simpl.
    - eapply H5, dict_get_Some_elem, E.
    - apply NoDup_nil_2. }
  assert (Hends : ∀ b, b ∈ dict_keys (dependencies_of self depender) →
                       b ∈ dict_keys (_entities self)).
  { unfold dependencies_of, dict_items. intros b.
    destruct (dict_get (_deps self) depender) as [d|] eqn:E; simpl.
    - eapply H7, dict_get_Some_elem, E.
    - by intros ?%elem_of_nil. }
  split; simpl; auto using dict_set_NoDup.
  - intros a d [[= -> ->] | Hin]%dict_set_elem_inv; [| eauto].
    by apply dict_set_NoDup.
  - intros a d [[= -> ->] | Hin]%dict_set_elem_inv; eauto.
  - intros a d b [[= -> ->] | Hin]%dict_set_elem_inv; [| eauto].
    intros [-> | ?]%dict_keys_set_elem; auto.
Qed.

Lemma spawn_wf gens self entity_id type_id goal_name generator_fn t0 priority h :
  ont_wf self →
  ont_wf (spawn gens self entity_id type_id goal_name generator_fn t0 priority h).1.2.
Proof.
  intros Hwf.
  destruct (spawn gens self entity_id type_id goal_name generator_fn t0 priority h)
    as [[[ent|e] self'] h'] eqn:E; simpl.
  - apply spawn_Ok_inv in E as (Hd & s & ret & Hs & Hcall & -> & ->).
    destruct Hwf as [H1 H2 H3 H4 H5 H6 H7].
    split; simpl; auto using dict_set_NoDup.
    + intros k e [[= -> ->] | Hin]%dict_set_elem_inv; [done | eauto].
    + intros a d Hin. apply dict_keys_set_elem. eauto.
    + intros a d b Hin Hb. apply dict_keys_set_elem. eauto.
  - pose proof (spawn_Raise_unchanged gens self entity_id type_id goal_name
                  generator_fn t0 priority h e) as Hu.
    rewrite E in Hu. simpl in Hu. by rewrite Hu.
Qed.

Lemma reachable_wf gens ont : reachable gens ont → ont_wf ont.
Proof.
  induction 1;
    auto using ont_wf_init, add_schema_wf, spawn_wf, add_dependency_wf.
Qed.

(** In a reachable state an identifier that was never spawned has no edge at
    either end. *)
Lemma edge_registered ont a b kind :
  ont_wf ont → edge ont a b kind →
  a ∈ dict_keys (_entities ont) ∧ b ∈ dict_keys (_entities ont).
Proof.
  intros Hwf (d & Had & Hbk). split.
  - eapply wf_deps_depender; eauto.
  - eapply wf_deps_dependee; eauto. apply (list_elem_of_fmap_2 fst _ _ Hbk).
Qed.

(** ** Counting incoming edges *)

Lemma py_sum_ones {A} (l : list A) :
  py_sum ((λ _, 1%Z) <$> l) = Z.of_nat (length l).
Proof.
  unfold py_sum. rewrite <- (Z.add_0_l (Z.of_nat (length l))).
  generalize 0%Z. induction l as [|x l IH]; intros z; csimpl; [lia |].
  rewrite IH. lia.
Qed.

Lemma effective_priority_eq self ont :
  effective_priority self ont
  = (Entity.priority self
     + Z.of_nat (length (dependents_of ont (Entity.eid self))))%Z.
Proof. unfold effective_priority, dependents. by rewrite py_sum_ones. Qed.

Lemma dependents_of_incoming self eid :
  dependents_of self eid
  = '(depender, d) ← _deps self; incoming_from eid depender d.
Proof. reflexivity. Qed.

Lemma incoming_from_set_length eid depender d dependee kind :
  length (incoming_from eid depender (dict_set d dependee kind))
  = length (incoming_from eid depender d)
    + (if decide (dependee = eid)
       then if dict_contains d dependee then 0 else 1 else 0).
Proof.
  unfold incoming_from, dict_items, dict_contains.
  induction d as [|[b0 k0] d IH]; csimpl.
  - by destruct (decide (dependee = eid)).
  - destruct (decide (b0 = dependee)) as [-> | Hne]; csimpl.
    + rewrite !length_app. destruct (decide (dependee = eid)); simpl; lia.
    + rewrite !length_app, IH. lia.
Qed.

(** Rebinding one key of a dictionary changes the length of a comprehension
    over its items by what that key contributes. *)
Lemma bind_dict_set_length {V B} (g : string → V → list B) (d : dict V) k v :
  length ('(k', v') ← dict_set d k v; g k' v')
  + length (from_option (g k) [] (dict_get d k))
  = length ('(k', v') ← d; g k' v') + length (g k v).
Proof.
  induction d as [|[k0 v0] d IH]; csimpl.
  - rewrite length_app. simpl. lia.
  - destruct (decide (k0 = k)) as [-> | Hne]; csimpl.
    + rewrite !length_app. lia.
    + rewrite !length_app. lia.
Qed.

(** The incoming edges of [eid] after a successful [add_dependency]: one more
    exactly when the edge ends in [eid] and the pair had no edge yet. *)
Lemma add_dependency_dependents_length self depender dependee kind self' eid :
  add_dependency self depender dependee kind = (Ok tt, self') →
  length (dependents_of self' eid)
  = length (dependents_of self eid)
    + (if decide (dependee = eid)
       then if dict_contains (dependencies_of self depender) dependee
            then 0 else 1
       else 0).
Proof.
  destruct (add_dependency_cases self depender dependee kind)
    as [-> | (Ha & Hb & ->)]; [done |].
  intros [= <-]. rewrite !dependents_of_incoming; simpl.
  pose proof (bind_dict_set_length (incoming_from eid) (_deps self) depender
                (dict_set (dependencies_of self depender) dependee kind)) as H.
  rewrite incoming_from_set_length in H.
  assert (from_option (incoming_from eid depender) [] (dict_get (_deps self) depender)
          = incoming_from eid depender (dependencies_of self depender)) as Hold.
  { unfold dependencies_of, dict_items.
    by destruct (dict_get (_deps self) depender). }
  rewrite Hold in H. lia.
Qed.

(** ** The example's states are reachable *)

Lemma quickstart_schemas_reachable :
  reachable Quickstart.gens Quickstart.onto_schemas.
Proof. repeat apply reach_add_schema. apply reach_init. Qed.

Lemma quickstart_spawned_reachable :
  reachable Quickstart.gens Quickstart.onto_spawned.
Proof.
  repeat apply reach_spawn. apply quickstart_schemas_reachable.
Qed.

Lemma quickstart_reachable : reachable Quickstart.gens Quickstart.onto.
Proof.
  repeat apply reach_add_dependency. apply quickstart_spawned_reachable.
Qed.

(** ** The example, evaluated *)

Example quickstart_entities :
  Entity.eid <$> entities Quickstart.onto
  = ["tea_entity"; "whale_entity"; "petunia_entity"].
Proof. reflexivity. Qed.

Example quickstart_deps :
  _deps Quickstart.onto
  = [("whale_entity", [("tea_entity", "supports")]);
     ("petunia_entity", [("whale_entity", "supports")])].
Proof. reflexivity. Qed.

Example quickstart_dependents_of_whale :
  dependents_of Quickstart.onto "whale_entity" = [("petunia_entity", "supports")].
Proof. reflexivity. Qed.

(** The scenario of the specification: "a strict chain
    tea -> [slack] -> whale -> [slack] -> petunia". *)
Example quickstart_schedule :
  let '(r, h) :=
    multi_entity_schedule Quickstart.scope_score Quickstart.onto
      Quickstart.store in
  r = Ok (length Quickstart.store)
  ∧ ChangeEvent.eid <$> ChangeSet.events h (length Quickstart.store)
    = ["tea-party-with-Vogon"; "slack::whale_entity";
       "spontaneous-whale-appearance"; "slack::petunia_entity";
       "petunia-uprising"].
Proof. vm_compute. split; reflexivity. Qed.

Example quickstart_cycle :
  (multi_entity_schedule Quickstart.scope_score Quickstart.onto_cycle
     Quickstart.store).1
  = Raise (CycleError "dependency cycle").
Proof. vm_compute. reflexivity. Qed.

(** * Properties of the specification *)

(** ** C1: the timeline after [spawn] *)

(** The events of the timeline of a spawned entity, read off what the
    generator returned. *)
Lemma spawn_timeline_events gens self entity_id type_id goal_name generator_fn
    t0 priority h ent self' h' :
  spawn gens self entity_id type_id goal_name generator_fn t0 priority h
  = (Ok ent, self', h') →
  ∃ s ret,
    schema self type_id = Ok s ∧
    gens generator_fn
      (seeded_entity s entity_id goal_name generator_fn t0 priority h)
      (seeded_heap entity_id goal_name t0 priority h) = Ok ret ∧
    Entity.goal ent = goal_event entity_id goal_name t0 priority ∧
    ChangeSet.events h' (Entity.timeline ent)
    = match ret with
      | Some (ev :: evs) => ev :: evs
      | _ => [goal_event entity_id goal_name t0 priority]
      end.
Proof.
  intros (Hd & s & ret' & Hs & Hcall & -> & ->)%spawn_Ok_inv.
  exists s. unfold call_generator, ChangeSet.new in Hcall.
  destruct (gens generator_fn _ _) as [[evs|]|e] eqn:Hg; [| | done].
  - injection Hcall as <- <-. exists (Some evs). split_and!; [done..|].
    unfold py_or. cbn [Entity.set_timeline Entity.timeline].
    rewrite truthy_new. destruct evs as [|ev evs].
    + rewrite events_new_old by (unfold seeded_heap; rewrite length_app; simpl; lia).
      apply events_new.
    + apply events_new.
  - injection Hcall as <- <-. exists None. split_and!; [done..|].
    apply seeded_events.
Qed.

(** C1, as stated, fails on the first [spawn] of the quickstart example: the
    call succeeds, its generator returns a one-event ChangeSet without the
    goal event, that ChangeSet replaces the seeded timeline, and the goal
    event is not in the returned entity's timeline. *)
Lemma spawn_goal_event_lost :
  ∃ ent self' h',
    spawn Quickstart.gens Quickstart.onto_schemas "tea_entity" "tea-party"
      "tea-party-with-Vogon" Quickstart.tea_generator (TFloat 0) 0 []
    = (Ok ent, self', h')
    ∧ ChangeSet.events h' (Entity.timeline ent)
      = [ChangeEvent.mk "tea-party-with-Vogon" (TFloat 0) 0.5 1 []]
    ∧ Entity.goal ent ∉ ChangeSet.events h' (Entity.timeline ent).
Proof.
  do 3 eexists. split_and!; [reflexivity | reflexivity |].
  intros Hin. vm_compute in Hin.
  apply list_elem_of_singleton in Hin. discriminate Hin.
Qed.

(** C1 (amended): after a successful [spawn] the timeline of the returned
    entity contains the goal event if and only if the generator returned
    [None], an empty ChangeSet, or a ChangeSet that itself contains the goal
    event; a non-empty ChangeSet returned by the generator is the timeline as
    it is. *)
Theorem spawn_timeline_goal gens self entity_id type_id goal_name generator_fn
    t0 priority h ent self' h' :
  spawn gens self entity_id type_id goal_name generator_fn t0 priority h
  = (Ok ent, self', h') →
  ∃ s ret,
    schema self type_id = Ok s ∧
    gens generator_fn
      (seeded_entity s entity_id goal_name generator_fn t0 priority h)
      (seeded_heap entity_id goal_name t0 priority h) = Ok ret ∧
    (Entity.goal ent ∈ ChangeSet.events h' (Entity.timeline ent) ↔
       ret = None ∨ ret = Some [] ∨
       ∃ evs, ret = Some evs ∧ Entity.goal ent ∈ evs) ∧
    (∀ ev evs, ret = Some (ev :: evs) →
       ChangeSet.events h' (Entity.timeline ent) = ev :: evs).
Proof.
  intros (s & ret & Hs & Hg & Hgoal & Hevs)%spawn_timeline_events.
  exists s, ret. split_and!; [done | done | |].
  - rewrite Hevs, Hgoal. destruct ret as [[|ev evs]|].
    + split; [auto | intros _; by apply list_elem_of_singleton].
    + split; [intros ?; right; right; eauto |].
      intros [? | [? | (evs' & [= <-] & ?)]]; done.
    + split; [auto | intros _; by apply list_elem_of_singleton].
  - intros ev evs ->. done.
Qed.

(** C1 (amended) at a spawn of the example whose generator returns [None]. *)
Lemma spawn_timeline_goal_witness :
  let goal := goal_event "tea_entity" "tea" (TFloat 0) 0 in
  let ent :=
    Entity.mk "tea_entity" Quickstart.tea_schema goal 0
              Quickstart.none_generator 0 in
  let self' :=
    mkOntology (_schemas Quickstart.onto_schemas) [("tea_entity", ent)] [] in
  spawn Quickstart.gens Quickstart.onto_schemas "tea_entity" "tea-party" "tea"
    Quickstart.none_generator (TFloat 0) 0 []
  = (Ok ent, self', [[goal]])
  ∧ ∃ s ret,
      schema Quickstart.onto_schemas "tea-party" = Ok s ∧
      Quickstart.gens Quickstart.none_generator
        (seeded_entity s "tea_entity" "tea" Quickstart.none_generator
           (TFloat 0) 0 [])
        (seeded_heap "tea_entity" "tea" (TFloat 0) 0 []) = Ok ret ∧
      (Entity.goal ent ∈ ChangeSet.events [[goal]] (Entity.timeline ent) ↔
         ret = None ∨ ret = Some [] ∨
         ∃ evs, ret = Some evs ∧ Entity.goal ent ∈ evs) ∧
      (∀ ev evs, ret = Some (ev :: evs) →
         ChangeSet.events [[goal]] (Entity.timeline ent) = ev :: evs).
Proof.
  split; [reflexivity |].
  exact (spawn_timeline_goal Quickstart.gens Quickstart.onto_schemas
           "tea_entity" "tea-party" "tea" Quickstart.none_generator
           (TFloat 0) 0%Z [] _ _ _ eq_refl).
Defined.

(** ** C3: a failing [spawn] changes nothing *)

(** C3: [spawn] raises [KeyError("Entity '<entity_id>' already exists")] when
    [entity_id] is registered, raises a [KeyError] (for the key [type_id],
    unless the duplicate check fired first) when [type_id] is not a registered
    schema, passes on what the generator raises, and whenever it raises the
    entity map, the schema map and the dependency map are as before the
    call. *)
Theorem spawn_failure_atomic gens self entity_id type_id goal_name generator_fn
    t0 priority h :
  let r :=
    spawn gens self entity_id type_id goal_name generator_fn t0 priority h in
  (dict_contains (_entities self) entity_id = true →
     r.1.1 = Raise (KeyError ("Entity '" +:+ entity_id +:+ "' already exists")))
  ∧ (dict_contains (_schemas self) type_id = false →
       is_KeyError r.1.1
       ∧ (dict_contains (_entities self) entity_id = false →
            r.1.1 = Raise (KeyError type_id)))
  ∧ (∀ s e,
       dict_contains (_entities self) entity_id = false →
       schema self type_id = Ok s →
       gens generator_fn
         (seeded_entity s entity_id goal_name generator_fn t0 priority h)
         (seeded_heap entity_id goal_name t0 priority h) = Raise e →
       r.1.1 = Raise e)
  ∧ (∀ e, r.1.1 = Raise e →
       _entities r.1.2 = _entities self
       ∧ _schemas r.1.2 = _schemas self
       ∧ _deps r.1.2 = _deps self).
Proof.
  cbv zeta. split_and!.
  - intros Hd. by rewrite spawn_duplicate.
  - intros Hs. destruct (dict_contains (_entities self) entity_id) eqn:Hd.
    + rewrite spawn_duplicate by done. by split.
    + rewrite spawn_unknown_schema by done. by split.
  - intros s e Hd Hs Hg. rewrite (spawn_run _ _ _ _ _ _ _ _ _ _ Hd Hs).
    cbv zeta. by rewrite (call_generator_Raise _ _ _ _ _ Hg).
  - intros e He. by rewrite (spawn_Raise_unchanged _ _ _ _ _ _ _ _ _ _ He).
Qed.

(** C3 at the example: a duplicate identifier with an unknown type, and a
    generator that raises. *)
Lemma spawn_failure_atomic_witness :
  (* a second spawn of "tea_entity", and a spawn with a raising generator *)
  let self := Quickstart.spawn_tea.1.2 in
  let h := Quickstart.spawn_tea.2 in
  let dup :=
    spawn Quickstart.gens self "tea_entity" "no-such-type" "tea"
      Quickstart.tea_generator (TFloat 0) 0 h in
  let failing :=
    spawn Quickstart.gens self "whale_entity" "whale" "whale"
      Quickstart.failing_generator (TFloat 0) 0 h in
  (dict_contains (_entities self) "tea_entity" = true
   ∧ dup.1.1 = Raise (KeyError "Entity 'tea_entity' already exists"))
  ∧ (dict_contains (_schemas self) "no-such-type" = false ∧ is_KeyError dup.1.1)
  ∧ (failing.1.1 = Raise (PyException "RuntimeError" "generator failed")
     ∧ _entities failing.1.2 = _entities self
     ∧ _schemas failing.1.2 = _schemas self
     ∧ _deps failing.1.2 = _deps self).
Proof.
  cbv zeta.
  pose proof (spawn_failure_atomic Quickstart.gens Quickstart.spawn_tea.1.2
                "tea_entity" "no-such-type" "tea" Quickstart.tea_generator
                (TFloat 0) 0%Z Quickstart.spawn_tea.2) as (Hdup & Hty & _ & _).
  pose proof (spawn_failure_atomic Quickstart.gens Quickstart.spawn_tea.1.2
                "whale_entity" "whale" "whale" Quickstart.failing_generator
                (TFloat 0) 0%Z Quickstart.spawn_tea.2) as (_ & _ & Hgen & Hsame).
  split_and!.
  - reflexivity.
  - apply Hdup. reflexivity.
  - reflexivity.
  - apply Hty. reflexivity.
  - apply (Hgen Quickstart.whale_schema); reflexivity.
  - apply (Hsame (PyException "RuntimeError" "generator failed")).
    apply (Hgen Quickstart.whale_schema); reflexivity.
  - apply (Hsame (PyException "RuntimeError" "generator failed")).
    apply (Hgen Quickstart.whale_schema); reflexivity.
  - apply (Hsame (PyException "RuntimeError" "generator failed")).
    apply (Hgen Quickstart.whale_schema); reflexivity.
Defined.

(** ** C4: effective priority *)

(** A depender with no edge to [eid] yet has no entry for it. *)
Lemma new_depender_no_entry ont depender eid :
  (∀ k, (depender, k) ∉ dependents_of ont eid) →
  dict_contains (dependencies_of ont depender) eid = false.
Proof.
  intros Hnew. unfold dict_contains.
  destruct (dict_get (dependencies_of ont depender) eid) as [k|] eqn:E; [| done].
  exfalso. apply (Hnew k), elem_of_dependents_of.
  apply dict_get_Some_elem in E. unfold dependencies_of, dict_items in E.
  destruct (dict_get (_deps ont) depender) as [d|] eqn:Ed; simpl in E.
  - exists d. split; [by apply dict_get_Some_elem | done].
  - by apply elem_of_nil in E.
Qed.

(** C4: [effective_priority(e)] is the base priority plus the number of
    entries of [dependents_of(e)], computed from the Ontology it is given at
    each call; after [add_dependency] has added an edge to [e] from a depender
    that had none, it is larger by exactly 1. *)
Theorem effective_priority_pull self ont depender kind ont' :
  effective_priority self ont
  = (Entity.priority self
     + Z.of_nat (length (dependents_of ont (Entity.eid self))))%Z
  ∧ (add_dependency ont depender (Entity.eid self) kind = (Ok tt, ont') →
     (∀ k, (depender, k) ∉ dependents_of ont (Entity.eid self)) →
     effective_priority self ont' = (effective_priority self ont + 1)%Z).
Proof.
  split; [apply effective_priority_eq |].
  intros Hadd Hnew. rewrite !effective_priority_eq.
  rewrite (add_dependency_dependents_length _ _ _ _ _ _ Hadd).
  rewrite decide_True by done.
  rewrite (new_depender_no_entry _ _ _ Hnew). lia.
Qed.

(** C4 at the example's first dependency edge. *)
Lemma effective_priority_pull_witness :
  (* the tea entity of the example, before and after the whale depends on it *)
  let tea :=
    Entity.mk "tea_entity" Quickstart.tea_schema
      (goal_event "tea_entity" "tea-party-with-Vogon" (TFloat 0) 0) 1
      Quickstart.tea_generator 0 in
  add_dependency Quickstart.onto_spawned "whale_entity" "tea_entity" "supports"
  = (Ok tt, Quickstart.onto_whale_tea)
  ∧ dependents_of Quickstart.onto_spawned "tea_entity" = []
  ∧ effective_priority tea Quickstart.onto_spawned = 0%Z
  ∧ effective_priority tea Quickstart.onto_whale_tea
    = (effective_priority tea Quickstart.onto_spawned + 1)%Z.
Proof.
  cbv zeta. split_and!; [reflexivity | reflexivity | reflexivity |].
  refine (proj2 (effective_priority_pull
                   (Entity.mk "tea_entity" Quickstart.tea_schema
                      (goal_event "tea_entity" "tea-party-with-Vogon" (TFloat 0) 0)
                      1 Quickstart.tea_generator 0)
                   Quickstart.onto_spawned "whale_entity" "supports"
                   Quickstart.onto_whale_tea) eq_refl _).
  intros k Hin. vm_compute in Hin. by apply elem_of_nil in Hin.
Defined.

(** ** C5: [add_dependency] *)

Lemma dict_set_elem_unique {V} (d : dict V) k v k' v' :
  NoDup (dict_keys d) →
  (k', v') ∈ dict_set d k v ↔ (k' = k ∧ v' = v) ∨ (k' ≠ k ∧ (k', v') ∈ d).
Proof.
  intros Hnd. split.
  - intros Hin. destruct (decide (k' = k)) as [-> | Hne].
    + left. split; [done |].
      apply (dict_elem_get _ _ _ (dict_set_NoDup _ k v Hnd)) in Hin.
      rewrite dict_get_set_eq in Hin. congruence.
    + right. split; [done |].
      apply dict_set_elem_inv in Hin as [[= -> ->] | ?]; done.
  - intros [[-> ->] | [Hne Hin]].
    + apply dict_set_elem_new.
    + by apply dict_set_elem_old.
Qed.

Lemma dependencies_of_NoDup ont a :
  ont_wf ont → NoDup (dict_keys (dependencies_of ont a)).
Proof.
  intros Hwf. unfold dependencies_of, dict_items.
  destruct (dict_get (_deps ont) a) as [d|] eqn:E; simpl.
  - eapply wf_deps_inner, dict_get_Some_elem, E. done.
  - apply NoDup_nil_2.
Qed.

(** C5: [add_dependency] raises [KeyError] and leaves the Ontology as it was
    when an end is not a registered entity; otherwise it succeeds, the edges
    out of any entity afterwards are the new edge together with the old edges
    of all other pairs (an old edge of the same pair is overwritten), and in
    every reachable state a pair has at most one kind, seen from either
    end. *)
Theorem add_dependency_spec gens self depender dependee kind :
  reachable gens self →
  (dict_contains (_entities self) depender = false
   ∨ dict_contains (_entities self) dependee = false →
   add_dependency self depender dependee kind
   = (Raise (KeyError "Both entities must exist before linking"), self))
  ∧ (dict_contains (_entities self) depender = true →
     dict_contains (_entities self) dependee = true →
     ∃ self',
       add_dependency self depender dependee kind = (Ok tt, self')
       ∧ _schemas self' = _schemas self
       ∧ _entities self' = _entities self
       ∧ ∀ a b k,
           (b, k) ∈ dependencies_of self' a ↔
           (a = depender ∧ b = dependee ∧ k = kind)
           ∨ (¬ (a = depender ∧ b = dependee)
              ∧ (b, k) ∈ dependencies_of self a))
  ∧ (∀ a b k1 k2,
       ((b, k1) ∈ dependencies_of self a → (b, k2) ∈ dependencies_of self a →
        k1 = k2)
       ∧ ((a, k1) ∈ dependents_of self b → (a, k2) ∈ dependents_of self b →
          k1 = k2)).
Proof.
  intros Hwf%reachable_wf. split_and!.
  - apply add_dependency_missing.
  - intros Ha Hb. eexists. split; [by apply add_dependency_Ok |].
    split_and!; [done | done |]. intros a b k.
    destruct (decide (a = depender)) as [-> | Hne].
    + rewrite dependencies_of_set.
      rewrite dict_set_elem_unique by by apply dependencies_of_NoDup.
      intuition congruence.
    + rewrite dependencies_of_set_ne by done.
      destruct self; simpl. intuition congruence.
  - assert (Hone : ∀ a b k1 k2,
              (b, k1) ∈ dependencies_of self a →
              (b, k2) ∈ dependencies_of self a → k1 = k2).
    { intros a b k1 k2 H1 H2.
      pose proof (dependencies_of_NoDup self a Hwf) as Hnd.
      apply (dict_elem_get _ _ _ Hnd) in H1, H2. congruence. }
    intros a b k1 k2. split; [apply Hone |].
    rewrite !elem_of_dependents_of.
    rewrite <- !(elem_of_dependencies_of self a b) by apply Hwf.
    apply Hone.
Qed.

Lemma quickstart_whale_tea_reachable :
  reachable Quickstart.gens Quickstart.onto_whale_tea.
Proof. apply reach_add_dependency, quickstart_spawned_reachable. Qed.

(** C5 at the example: a missing end, and an edge that overwrites one. *)
Lemma add_dependency_spec_witness :
  (* the whale already depends on the tea entity; "vogon" was never spawned *)
  let self := Quickstart.onto_whale_tea in
  reachable Quickstart.gens self
  ∧ (dict_contains (_entities self) "vogon" = false
     ∧ add_dependency self "vogon" "tea_entity" "supports"
       = (Raise (KeyError "Both entities must exist before linking"), self))
  ∧ (dict_contains (_entities self) "whale_entity" = true
     ∧ dict_contains (_entities self) "tea_entity" = true
     ∧ ∃ self',
         add_dependency self "whale_entity" "tea_entity" "requires"
         = (Ok tt, self')
         ∧ (("tea_entity", "requires") ∈ dependencies_of self' "whale_entity")
         ∧ (("tea_entity", "supports") ∉ dependencies_of self' "whale_entity")).
Proof.
  cbv zeta.
  pose proof (add_dependency_spec Quickstart.gens Quickstart.onto_whale_tea
                "vogon" "tea_entity" "supports"
                quickstart_whale_tea_reachable) as (Hmiss & _ & _).
  pose proof (add_dependency_spec Quickstart.gens Quickstart.onto_whale_tea
                "whale_entity" "tea_entity" "requires"
                quickstart_whale_tea_reachable) as (_ & Hadd & _).
  split_and!; [apply quickstart_whale_tea_reachable | reflexivity | | reflexivity
              | reflexivity |].
  - apply Hmiss. left. reflexivity.
  - destruct (Hadd eq_refl eq_refl) as (self' & Heq & _ & _ & Hedges).
    exists self'. split_and!; [done | |].
    + apply Hedges. left. done.
    + intros [(_ & _ & [=]) | (Hne & _)]%Hedges. by apply Hne.
Defined.

(** ** C6: the goal event and the seeded timeline *)

(** C6: after a successful [spawn] the entity's goal is the event with eid
    ["<entity_id>::goal::<goal_name>"], the given [t0], [dt = 0], [prob = 1.0]
    and [meta = {"priority": priority}]; the generator is called on the entity
    built so far, whose timeline is a new ChangeSet holding that one event,
    and the returned entity is that entity with the timeline the call
    yields. *)
Theorem spawn_goal_seed gens self entity_id type_id goal_name generator_fn
    t0 priority h ent self' h' :
  spawn gens self entity_id type_id goal_name generator_fn t0 priority h
  = (Ok ent, self', h') →
  let goal_ev :=
    ChangeEvent.mk (entity_id +:+ "::goal::" +:+ goal_name) t0 0 1
                   [("priority", PyInt priority)] in
  Entity.goal ent = goal_ev
  ∧ ∃ s ret,
      schema self type_id = Ok s ∧
      let ent0 :=
        Entity.mk entity_id s goal_ev (length h) generator_fn priority in
      let h0 := h ++ [[goal_ev]] in
      h !! Entity.timeline ent0 = None
      ∧ ChangeSet.events h0 (Entity.timeline ent0) = [goal_ev]
      ∧ call_generator gens generator_fn ent0 h0 = (Ok ret, h')
      ∧ ent = Entity.set_timeline ent0 (py_or h' ret (Entity.timeline ent0)).
Proof.
  intros (Hd & s & ret & Hs & Hcall & -> & ->)%spawn_Ok_inv. cbv zeta.
  split; [done |]. exists s, ret. split_and!; [done | | | done | done].
  - apply lookup_ge_None_2. simpl. lia.
  - apply events_new.
Qed.

(** C6 at the first spawn of the example. *)
Lemma spawn_goal_seed_witness :
  (* the first spawn of the example *)
  let goal_ev :=
    ChangeEvent.mk "tea_entity::goal::tea-party-with-Vogon" (TFloat 0) 0 1
                   [("priority", PyInt 0)] in
  let tea_ev := ChangeEvent.mk "tea-party-with-Vogon" (TFloat 0) 0.5 1 [] in
  let ent :=
    Entity.mk "tea_entity" Quickstart.tea_schema goal_ev 1
              Quickstart.tea_generator 0 in
  Quickstart.spawn_tea
  = (Ok ent, Quickstart.spawn_tea.1.2, [[goal_ev]; [tea_ev]])
  ∧ Entity.goal ent = goal_ev
  ∧ ∃ s ret,
      schema Quickstart.onto_schemas "tea-party" = Ok s ∧
      let ent0 :=
        Entity.mk "tea_entity" s goal_ev 0 Quickstart.tea_generator 0 in
      ([] : heap) !! Entity.timeline ent0 = None
      ∧ ChangeSet.events [[goal_ev]] (Entity.timeline ent0) = [goal_ev]
      ∧ call_generator Quickstart.gens Quickstart.tea_generator ent0 [[goal_ev]]
        = (Ok ret, [[goal_ev]; [tea_ev]])
      ∧ ent = Entity.set_timeline ent0
                (py_or [[goal_ev]; [tea_ev]] ret (Entity.timeline ent0)).
Proof.
  cbv zeta. split; [reflexivity |].
  exact (spawn_goal_seed Quickstart.gens Quickstart.onto_schemas
           "tea_entity" "tea-party" "tea-party-with-Vogon"
           Quickstart.tea_generator (TFloat 0) 0%Z [] _ _ _ eq_refl).
Defined.

(** ** Generators as effects *)

(** The pure generators are the effects that leave the entity alone: on
    them the two readings of [regenerate] and of [spawn] agree. *)
Lemma regenerate_pure gens self h :
  Effectful.regenerate (pure_effect gens) self h = regenerate gens self h.
Proof.
  unfold Effectful.regenerate, regenerate, pure_effect.
  by destruct (call_generator gens (Entity.generator self) self h)
    as [[ret|e] h'].
Qed.

Lemma spawn_pure gens self entity_id type_id goal_name generator_fn t0 priority h :
  Effectful.spawn (pure_effect gens) self entity_id type_id goal_name
    generator_fn t0 priority h
  = spawn gens self entity_id type_id goal_name generator_fn t0 priority h.
Proof.
  unfold Effectful.spawn, spawn, pure_effect, ChangeSet.new.
  destruct (dict_contains (_entities self) entity_id); [done |].
  destruct (schema self type_id) as [s|e]; [| done]. cbv beta iota zeta.
  by destruct (call_generator gens generator_fn _ _) as [[ret|e] h'].
Qed.

(** Past its two checks, [spawn] calls the generator on the seeded entity and
    registers the entity as the call left it, with the timeline set. *)
Lemma effectful_spawn_run invoke self entity_id type_id goal_name generator_fn
    t0 priority h s :
  dict_contains (_entities self) entity_id = false →
  schema self type_id = Ok s →
  Effectful.spawn invoke self entity_id type_id goal_name generator_fn t0
    priority h
  = match invoke generator_fn
            (seeded_entity s entity_id goal_name generator_fn t0 priority h)
            (seeded_heap entity_id goal_name t0 priority h) with
    | (Raise e, _, h') => (Raise e, self, h')
    | (Ok ret, ent1, h') =>
        let ent := Entity.set_timeline ent1 (py_or h' ret (length h)) in
        (Ok ent,
         mkOntology (_schemas self) (dict_set (_entities self) entity_id ent)
                    (_deps self),
         h')
    end.
Proof.
  unfold Effectful.spawn, ChangeSet.new. intros -> ->.
  cbv beta iota zeta. rewrite seed_store. reflexivity.
Qed.

(** ** C7: a generator that returns [None] *)

(** C7, as stated, fails: a generator that adds an event to the timeline of
    the entity it is given and returns [None] makes [spawn] return an entity
    whose timeline is the seeded ChangeSet holding the goal event and the
    added event, not the goal event only. *)
Lemma spawn_None_timeline_grown :
  let goal := goal_event "tea_entity" "tea" (TFloat 0) 0 in
  ∃ ent self' h',
    (Mutators.effects Mutators.add_in_place
       (seeded_entity Quickstart.tea_schema "tea_entity" "tea"
          Mutators.add_in_place (TFloat 0) 0 [])
       (seeded_heap "tea_entity" "tea" (TFloat 0) 0 [])).1.1 = Ok None
    ∧ Effectful.spawn Mutators.effects Quickstart.onto_schemas "tea_entity"
        "tea-party" "tea" Mutators.add_in_place (TFloat 0) 0 []
      = (Ok ent, self', h')
    ∧ ChangeSet.events h' (Entity.timeline ent) = [goal; Mutators.sneaked]
    ∧ ChangeSet.events h' (Entity.timeline ent) ≠ [goal].
Proof.
  cbv zeta. do 3 eexists.
  split_and!; [reflexivity | reflexivity | reflexivity |].
  vm_compute. discriminate.
Qed.

(** C7 (amended): when the generator returns [None], [regenerate] replaces
    nothing: the entity, its timeline reference included, and the store are
    after the call exactly as the generator left them, so they are as before
    the call when the generator changed neither.  [spawn] then returns the
    entity with the seeded ChangeSet object as its timeline, and that
    ChangeSet holds the goal event only when the generator left the store as
    it was. *)
Theorem generator_None_timeline invoke :
  (∀ self h ent1 h1,
     invoke (Entity.generator self) self h = (Ok None, ent1, h1) →
     Effectful.regenerate invoke self h = (Ok tt, ent1, h1))
  ∧ (∀ self h,
       invoke (Entity.generator self) self h = (Ok None, self, h) →
       Effectful.regenerate invoke self h = (Ok tt, self, h))
  ∧ (∀ self entity_id type_id goal_name generator_fn t0 priority h s ent1 h1,
       dict_contains (_entities self) entity_id = false →
       schema self type_id = Ok s →
       invoke generator_fn
         (seeded_entity s entity_id goal_name generator_fn t0 priority h)
         (seeded_heap entity_id goal_name t0 priority h) = (Ok None, ent1, h1) →
       ∃ ent self',
         Effectful.spawn invoke self entity_id type_id goal_name generator_fn
           t0 priority h = (Ok ent, self', h1)
         ∧ Entity.timeline ent = length h
         ∧ h !! Entity.timeline ent = None
         ∧ (h1 = seeded_heap entity_id goal_name t0 priority h →
            ChangeSet.events h1 (Entity.timeline ent)
            = [goal_event entity_id goal_name t0 priority])).
Proof.
  assert (Hkeep : ∀ self h ent1 h1,
            invoke (Entity.generator self) self h = (Ok None, ent1, h1) →
            Effectful.regenerate invoke self h = (Ok tt, ent1, h1)).
  { intros self h ent1 h1 Hg. unfold Effectful.regenerate. rewrite Hg.
    simpl. by destruct ent1. }
  split_and!; [done | intros self h; apply Hkeep |].
  intros self entity_id type_id goal_name generator_fn t0 priority h s ent1 h1
    Hd Hs Hg.
  rewrite (effectful_spawn_run _ _ _ _ _ _ _ _ _ _ Hd Hs), Hg. cbv zeta.
  do 2 eexists. split_and!; [reflexivity | done | |].
  - apply lookup_ge_None_2. simpl. lia.
  - intros ->. apply events_new.
Qed.

(** C7 (amended) at a generator that returns [None] and changes nothing. *)
Lemma generator_None_timeline_witness :
  let goal := goal_event "tea_entity" "tea" (TFloat 0) 0 in
  let ent :=
    Entity.mk "tea_entity" Quickstart.tea_schema goal 0 Mutators.quiet 0 in
  (Mutators.effects (Entity.generator ent) ent [[goal]] = (Ok None, ent, [[goal]])
   ∧ Effectful.regenerate Mutators.effects ent [[goal]] = (Ok tt, ent, [[goal]]))
  ∧ (dict_contains (_entities Quickstart.onto_schemas) "tea_entity" = false
     ∧ schema Quickstart.onto_schemas "tea-party" = Ok Quickstart.tea_schema
     ∧ Mutators.effects Mutators.quiet
         (seeded_entity Quickstart.tea_schema "tea_entity" "tea" Mutators.quiet
            (TFloat 0) 0 [])
         (seeded_heap "tea_entity" "tea" (TFloat 0) 0 [])
       = (Ok None, ent, [[goal]])
     ∧ ∃ ent' self',
         Effectful.spawn Mutators.effects Quickstart.onto_schemas "tea_entity"
           "tea-party" "tea" Mutators.quiet (TFloat 0) 0 []
         = (Ok ent', self', [[goal]])
         ∧ Entity.timeline ent' = 0
         ∧ ChangeSet.events [[goal]] (Entity.timeline ent') = [goal]).
Proof.
  cbv zeta.
  destruct (generator_None_timeline Mutators.effects) as (_ & Hregen & Hspawn).
  split_and!; [reflexivity | | reflexivity | reflexivity | reflexivity |].
  - apply Hregen. reflexivity.
  - destruct (Hspawn Quickstart.onto_schemas "tea_entity" "tea-party" "tea"
                Mutators.quiet (TFloat 0) 0%Z [] Quickstart.tea_schema _ _
                eq_refl eq_refl eq_refl)
      as (ent' & self' & Heq & Htl & _ & Hevs).
    exists ent', self'. split_and!; [exact Heq | exact Htl |].
    apply Hevs. reflexivity.
Defined.

(** ** C8: what [regenerate] may change *)

(** C8, as stated, fails: a generator that assigns [priority = 99] on the
    entity it is given (and returns [None]) leaves the entity with another
    priority after [regenerate] than before. *)
Lemma regenerate_priority_changed :
  let goal := goal_event "tea_entity" "tea" (TFloat 0) 1 in
  let ent :=
    Entity.mk "tea_entity" Quickstart.tea_schema goal 0 Mutators.set_priority 1 in
  Entity.priority ent = 1%Z
  ∧ Entity.priority (Effectful.regenerate Mutators.effects ent [[goal]]).1.2
    = 99%Z.
Proof. cbv zeta. split; reflexivity. Qed.

(** C8 (amended): [regenerate] itself assigns only [timeline]: whatever the
    generator does (return a ChangeSet, return [None] or raise), the [eid],
    [schema], [goal], [generator] and [priority] of the entity after the call
    are those the generator left, hence those of before the call whenever the
    generator did not assign them. *)
Theorem regenerate_assigns_timeline_only invoke self h :
  let ent1 := (invoke (Entity.generator self) self h).1.2 in
  let self' := (Effectful.regenerate invoke self h).1.2 in
  (Entity.eid self' = Entity.eid ent1
   ∧ Entity.schema self' = Entity.schema ent1
   ∧ Entity.goal self' = Entity.goal ent1
   ∧ Entity.generator self' = Entity.generator ent1
   ∧ Entity.priority self' = Entity.priority ent1)
  ∧ (Entity.eid ent1 = Entity.eid self
     ∧ Entity.schema ent1 = Entity.schema self
     ∧ Entity.goal ent1 = Entity.goal self
     ∧ Entity.generator ent1 = Entity.generator self
     ∧ Entity.priority ent1 = Entity.priority self →
     Entity.eid self' = Entity.eid self
     ∧ Entity.schema self' = Entity.schema self
     ∧ Entity.goal self' = Entity.goal self
     ∧ Entity.generator self' = Entity.generator self
     ∧ Entity.priority self' = Entity.priority self).
Proof.
  cbv zeta. unfold Effectful.regenerate.
  destruct (invoke (Entity.generator self) self h) as [[[ret|e] ent1] h'];
    simpl; by split.
Qed.

(** C8 (amended) at a generator that adds to the timeline in place: every
    field other than the timeline's events is as before. *)
Lemma regenerate_assigns_timeline_only_witness :
  let goal := goal_event "tea_entity" "tea" (TFloat 0) 1 in
  let ent :=
    Entity.mk "tea_entity" Quickstart.tea_schema goal 0 Mutators.add_in_place 1 in
  let ent1 := (Mutators.effects (Entity.generator ent) ent [[goal]]).1.2 in
  let ent' := (Effectful.regenerate Mutators.effects ent [[goal]]).1.2 in
  (Entity.eid ent1 = Entity.eid ent
   ∧ Entity.schema ent1 = Entity.schema ent
   ∧ Entity.goal ent1 = Entity.goal ent
   ∧ Entity.generator ent1 = Entity.generator ent
   ∧ Entity.priority ent1 = Entity.priority ent)
  ∧ (Entity.eid ent' = Entity.eid ent
     ∧ Entity.schema ent' = Entity.schema ent
     ∧ Entity.goal ent' = Entity.goal ent
     ∧ Entity.generator ent' = Entity.generator ent
     ∧ Entity.priority ent' = Entity.priority ent).
Proof.
  cbv zeta.
  assert (Hleft :
    let goal := goal_event "tea_entity" "tea" (TFloat 0) 1 in
    let ent :=
      Entity.mk "tea_entity" Quickstart.tea_schema goal 0
                Mutators.add_in_place 1 in
    let ent1 := (Mutators.effects (Entity.generator ent) ent [[goal]]).1.2 in
    Entity.eid ent1 = Entity.eid ent
    ∧ Entity.schema ent1 = Entity.schema ent
    ∧ Entity.goal ent1 = Entity.goal ent
    ∧ Entity.generator ent1 = Entity.generator ent
    ∧ Entity.priority ent1 = Entity.priority ent).
  { cbv zeta. split_and!; reflexivity. }
  split; [exact Hleft |].
  exact (proj2 (regenerate_assigns_timeline_only Mutators.effects
                  (Entity.mk "tea_entity" Quickstart.tea_schema
                     (goal_event "tea_entity" "tea" (TFloat 0) 1) 0
                     Mutators.add_in_place 1)
                  [[goal_event "tea_entity" "tea" (TFloat 0) 1]]) Hleft).
Defined.

(** ** C9: the edge queries on any identifier *)

(** C9: [dependencies_of] and [dependents_of] are total (a [get] with a
    default, and a comprehension: neither has a raising path); each returns
    the empty list for an identifier with no edge leaving (respectively
    entering) it, and in every reachable state both return the empty list for
    an identifier that was never spawned. *)
Theorem dependency_queries_total gens self eid :
  ((∀ dependee kind, ¬ edge self eid dependee kind) →
   dependencies_of self eid = [])
  ∧ ((∀ depender kind, ¬ edge self depender eid kind) →
     dependents_of self eid = [])
  ∧ (reachable gens self →
     dict_contains (_entities self) eid = false →
     dependencies_of self eid = [] ∧ dependents_of self eid = []).
Proof.
  assert (Hout : (∀ dependee kind, ¬ edge self eid dependee kind) →
                 dependencies_of self eid = []).
  { intros Hno. unfold dependencies_of, dict_items.
    destruct (dict_get (_deps self) eid) as [[|[b k] d]|] eqn:E; [done | | done].
    exfalso. apply (Hno b k). exists ((b, k) :: d).
    split; [by apply dict_get_Some_elem | apply elem_of_cons; auto]. }
  assert (Hin : (∀ depender kind, ¬ edge self depender eid kind) →
                dependents_of self eid = []).
  { intros Hno. destruct (dependents_of self eid) as [|[a k] l] eqn:E; [done |].
    exfalso. apply (Hno a k), elem_of_dependents_of.
    rewrite E. apply elem_of_cons; auto. }
  split_and!; [done | done |].
  intros Hwf%reachable_wf Hd. apply dict_contains_false in Hd. split.
  - apply Hout. intros b k He. by destruct (edge_registered _ _ _ _ Hwf He).
  - apply Hin. intros a k He. by destruct (edge_registered _ _ _ _ Hwf He).
Qed.

(** C9 at the example's final Ontology. *)
Lemma dependency_queries_total_witness :
  (* "vogon" was never spawned; nothing depends on "petunia_entity" *)
  reachable Quickstart.gens Quickstart.onto
  ∧ dict_contains (_entities Quickstart.onto) "vogon" = false
  ∧ dependencies_of Quickstart.onto "vogon" = []
  ∧ dependents_of Quickstart.onto "vogon" = []
  ∧ dependents_of Quickstart.onto "petunia_entity" = [].
Proof.
  destruct (dependency_queries_total Quickstart.gens Quickstart.onto "vogon")
    as (_ & _ & Hnever).
  destruct (dependency_queries_total Quickstart.gens Quickstart.onto
              "petunia_entity") as (_ & Hin & _).
  split_and!; [apply quickstart_reachable | reflexivity | | |].
  - apply Hnever; [apply quickstart_reachable | reflexivity].
  - apply Hnever; [apply quickstart_reachable | reflexivity].
  - apply Hin. intros a k He%elem_of_dependents_of.
    vm_compute in He. by apply elem_of_nil in He.
Defined.

(** ** C10: an entity that depends on itself *)

(** C10: for a registered entity [e], [add_dependency(e, e, kind)] succeeds
    and [(e, kind)] is then among [dependents_of(e)]; when nothing depended
    on [e] before, [dependents_of(e)] is exactly that entry and the effective
    priority of [e] is its base priority plus 1. *)
Theorem self_dependency self e kind :
  dict_contains (_entities self) e = true →
  ∃ self',
    add_dependency self e e kind = (Ok tt, self')
    ∧ (e, kind) ∈ dependents_of self' e
    ∧ (dependents_of self e = [] →
       dependents_of self' e = [(e, kind)]
       ∧ ∀ ent, Entity.eid ent = e →
           effective_priority ent self' = (Entity.priority ent + 1)%Z).
Proof.
  intros He. eexists. split; [by apply add_dependency_Ok |].
  assert (Hin : (e, kind) ∈
            dependents_of
              (mkOntology (_schemas self) (_entities self)
                 (dict_set (_deps self) e
                    (dict_set (dependencies_of self e) e kind))) e).
  { apply elem_of_dependents_of. eexists. split; simpl; apply dict_set_elem_new. }
  split; [done |]. intros Hnone.
  pose proof (add_dependency_dependents_length self e e kind _ e
                (add_dependency_Ok _ _ _ _ He He)) as Hlen.
  rewrite decide_True, Hnone in Hlen by done.
  rewrite new_depender_no_entry in Hlen
    by (intros k; rewrite Hnone; apply not_elem_of_nil).
  simpl in Hlen.
  assert (Hone : dependents_of
            (mkOntology (_schemas self) (_entities self)
               (dict_set (_deps self) e
                  (dict_set (dependencies_of self e) e kind))) e
          = [(e, kind)]).
  { destruct (dependents_of _ e) as [|x [|y l]]; simpl in Hlen; try lia.
    by apply list_elem_of_singleton in Hin as ->. }
  split; [done |]. intros ent <-.
  rewrite effective_priority_eq, Hone. simpl. lia.
Qed.

(** C10 at the example's tea entity. *)
Lemma self_dependency_witness :
  (* the tea entity of the example, made to depend on itself *)
  let tea :=
    Entity.mk "tea_entity" Quickstart.tea_schema
      (goal_event "tea_entity" "tea-party-with-Vogon" (TFloat 0) 0) 1
      Quickstart.tea_generator 0 in
  dict_contains (_entities Quickstart.onto_spawned) "tea_entity" = true
  ∧ dependents_of Quickstart.onto_spawned "tea_entity" = []
  ∧ ∃ self',
      add_dependency Quickstart.onto_spawned "tea_entity" "tea_entity" "supports"
      = (Ok tt, self')
      ∧ dependents_of self' "tea_entity" = [("tea_entity", "supports")]
      ∧ effective_priority tea self' = 1%Z.
Proof.
  cbv zeta. split_and!; [reflexivity | reflexivity |].
  destruct (self_dependency Quickstart.onto_spawned "tea_entity" "supports"
              eq_refl) as (self' & Hadd & _ & Hprio).
  destruct (Hprio eq_refl) as [Hone Hep].
  exists self'. split_and!; [done | done |]. by apply Hep.
Defined.

(** ** C2: the schedule merge and cycles *)

(** *** A finite set closed under successors has a cycle *)

Lemma closed_chain_cycle {A} `{EqDecision A} (R : relation A) (l : list A) :
  l ≠ [] →
  (∀ x, x ∈ l → ∃ y, y ∈ l ∧ tc R x y) →
  ∃ x, x ∈ l ∧ tc R x x.
Proof.
  induction l as [|z l IH]; [done |]. intros _ Hsucc.
  destruct (Hsucc z) as (w & Hw & Hzw); [apply elem_of_cons; auto |].
  destruct (decide (w = z)) as [-> | Hne].
  { exists z. split; [apply elem_of_cons; auto | done]. }
  apply elem_of_cons in Hw as [-> | Hw]; [done |].
  destruct IH as (x & Hx & Hxx).
  - intros ->. by apply elem_of_nil in Hw.
  - intros x Hx. destruct (Hsucc x) as (y & Hy & Hxy); [apply elem_of_cons; auto |].
    apply elem_of_cons in Hy as [-> | Hy]; [| eauto].
    exists w. split; [done |]. by etrans.
  - exists x. split; [apply elem_of_cons; auto | done].
Qed.

(** An entity on a cycle depends on an entity on a cycle. *)
Lemma on_cycle_step {A} (R : relation A) a :
  tc R a a → ∃ b, R a b ∧ tc R b b.
Proof.
  intros Haa.
  inversion Haa as [? ? Hab | ? b ? Hab Hba]; subst.
  - exists a. split; [done | by apply tc_once].
  - exists b. split; [done |]. eapply tc_r; eauto.
Qed.

Section navigator_facts.
Variable score : list ChangeEvent.t → float.
Implicit Types (ont : Ontology) (h : heap) (e : Entity.t).

(** *** Choosing the next entity *)

Lemma select_next_Some ont h merged remaining e rest :
  select_next score ont h merged remaining = Some (e, rest) →
  eligible ont merged e = true ∧ remaining ≡ₚ e :: rest.
Proof.
  revert e rest. induction remaining as [|x l IH]; intros e rest; simpl; [done |].
  destruct (select_next score ont h merged l) as [[b rest']|] eqn:E.
  - destruct (IH b rest' eq_refl) as [Hb Hperm].
    destruct (eligible ont merged x) eqn:Hx; simpl.
    + destruct (prefer score ont h x b); intros [= <- <-]; [done |].
      split; [done |]. rewrite Hperm. apply Permutation_swap.
    + intros [= <- <-]. split; [done |]. rewrite Hperm. apply Permutation_swap.
  - destruct (eligible ont merged x) eqn:Hx; [| done].
    by intros [= <- <-].
Qed.

Lemma select_next_None ont h merged remaining :
  select_next score ont h merged remaining = None →
  ∀ e, e ∈ remaining → eligible ont merged e = false.
Proof.
  induction remaining as [|x l IH]; simpl; [by intros _ e ?%elem_of_nil |].
  destruct (select_next score ont h merged l) as [[b rest']|] eqn:E.
  - by destruct (eligible ont merged x && prefer score ont h x b).
  - destruct (eligible ont merged x) eqn:Hx; [done |].
    intros _ e [-> | ?]%elem_of_cons; auto.
Qed.

(** An entity that is not eligible depends on an entity not merged yet. *)
Lemma not_eligible ont merged e :
  eligible ont merged e = false →
  ∃ b, depends ont (Entity.eid e) b ∧ b ∉ merged.
Proof.
  unfold eligible, dependencies, depends.
  induction (dependencies_of ont (Entity.eid e)) as [|[b k] l IH]; simpl; [done |].
  destruct (bool_decide (b ∈ merged)) eqn:Hb; simpl.
  - intros (b' & [k' Hin] & Hb')%IH. exists b'.
    split; [exists k'; apply elem_of_cons; auto | done].
  - intros _. apply bool_decide_eq_false in Hb. exists b.
    split; [exists k; apply elem_of_cons; auto | done].
Qed.

Lemma eligible_depends ont merged e b :
  eligible ont merged e = true → depends ont (Entity.eid e) b → b ∈ merged.
Proof.
  unfold eligible, dependencies, depends. intros Hall [k Hin].
  rewrite forallb_forall in Hall. specialize (Hall (b, k)).
  eapply bool_decide_eq_true_1, Hall. by apply list_elem_of_In.
Qed.

(** *** The rounds of the topological ordering *)

Lemma topological_rounds_Raise ont h rounds remaining merged err :
  topological_rounds score ont h rounds remaining merged = Raise err →
  err = CycleError "dependency cycle".
Proof.
  revert remaining merged.
  induction rounds as [|n IH]; intros remaining merged; simpl; [done |].
  destruct (select_next score ont h merged remaining) as [[e rest]|];
    [| by intros [= <-]].
  destruct (topological_rounds score ont h n rest _) eqn:E; [done |].
  intros [= <-]. eauto.
Qed.

(** A completed ordering lists exactly the entities it was given. *)
Lemma topological_rounds_Permutation ont h rounds remaining merged order :
  topological_rounds score ont h rounds remaining merged = Ok order →
  length remaining = rounds →
  order ≡ₚ remaining.
Proof.
  revert remaining merged order.
  induction rounds as [|n IH]; intros remaining merged order; simpl.
  - intros [= <-] Hlen. by destruct remaining.
  - destruct (select_next score ont h merged remaining) as [[e rest]|] eqn:Hsel;
      [| done].
    destruct (select_next_Some _ _ _ _ _ _ Hsel) as [_ Hperm].
    destruct (topological_rounds score ont h n rest _) as [l|] eqn:E; [| done].
    intros [= <-] Hlen. rewrite Hperm. constructor.
    eapply IH; [done |]. rewrite Hperm in Hlen. simpl in Hlen. lia.
Qed.

(** No entity on a cycle is ever placed. *)
Lemma topological_rounds_off_cycle ont h rounds remaining merged order :
  topological_rounds score ont h rounds remaining merged = Ok order →
  length remaining = rounds →
  (∀ a, a ∈ merged → ¬ tc (depends ont) a a) →
  ∀ e, e ∈ remaining → ¬ tc (depends ont) (Entity.eid e) (Entity.eid e).
Proof.
  revert remaining merged order.
  induction rounds as [|n IH]; intros remaining merged order; simpl.
  - intros _ Hlen _ e He. destruct remaining; [by apply elem_of_nil in He | done].
  - destruct (select_next score ont h merged remaining) as [[x rest]|] eqn:Hsel;
      [| done].
    destruct (select_next_Some _ _ _ _ _ _ Hsel) as [Hx Hperm].
    destruct (topological_rounds score ont h n rest _) as [l|] eqn:E; [| done].
    intros _ Hlen Hmerged.
    assert (Hxc : ¬ tc (depends ont) (Entity.eid x) (Entity.eid x)).
    { intros (b & Hxb & Hbb)%on_cycle_step.
      apply (Hmerged b); [| done]. by eapply eligible_depends. }
    intros e He. rewrite Hperm in He.
    apply elem_of_cons in He as [-> | He]; [done |].
    eapply (IH rest (Entity.eid x :: merged)); [done | | | done].
    + rewrite Hperm in Hlen. simpl in Hlen. lia.
    + intros a [-> | Ha]%elem_of_cons; auto.
Qed.

(** Without a cycle every round finds an eligible entity. *)
Lemma topological_rounds_acyclic ont h rounds remaining merged :
  acyclic ont →
  length remaining = rounds →
  (∀ e b, e ∈ remaining → depends ont (Entity.eid e) b →
          b ∈ merged ∨ b ∈ Entity.eid <$> remaining) →
  is_Ok (topological_rounds score ont h rounds remaining merged).
Proof.
  intros Hacyc. revert remaining merged.
  induction rounds as [|n IH]; intros remaining merged Hlen Hclosed; simpl; [done |].
  destruct (select_next score ont h merged remaining) as [[x rest]|] eqn:Hsel.
  - destruct (select_next_Some _ _ _ _ _ _ Hsel) as [Hx Hperm].
    specialize (IH rest (Entity.eid x :: merged)).
    destruct (topological_rounds score ont h n rest _) as [l|err]; [done |].
    apply IH.
    + rewrite Hperm in Hlen. simpl in Hlen. lia.
    + intros e b He Heb.
      destruct (Hclosed e b) as [Hb | Hb]; [by rewrite Hperm; right | done | |].
      * left. by right.
      * rewrite Hperm in Hb. csimpl in Hb.
        apply elem_of_cons in Hb as [-> | Hb]; [left; by left | by right].
  - exfalso. pose proof (select_next_None _ _ _ _ Hsel) as Hnone.
    destruct (closed_chain_cycle (depends ont) (Entity.eid <$> remaining))
      as (a & _ & Haa).
    + destruct remaining; [done | by csimpl].
    + intros a (e & -> & He)%list_elem_of_fmap.
      destruct (not_eligible _ _ _ (Hnone e He)) as (b & Heb & Hb).
      exists b. split; [| by apply tc_once].
      destruct (Hclosed e b He Heb); done.
    + by apply (Hacyc a).
Qed.

(** *** Merging in order *)

Lemma merge_entity_events ont h combined finish e :
  ∃ added,
    (merge_entity ont h (combined, finish) e).1 = combined ++ added
    ∧ ∀ ev, ev ∈ ChangeSet.events h (Entity.timeline e) →
            ∃ ev', ev' ∈ added ∧ placed ev ev'.
Proof.
  unfold merge_entity.
  set (evs := ChangeSet.events h (Entity.timeline e)).
  set (ready := max_of _). set (start := min_of _).
  assert (Hsame : ∀ ev, ev ∈ evs → ∃ ev', ev' ∈ [] ++ evs ∧ placed ev ev').
  { intros ev Hev. exists ev. split; [done | by left]. }
  destruct ready as [r|], start as [s|]; simpl;
    try (eexists; split; [reflexivity | exact Hsame]).
  destruct (s <? r)%float; simpl;
    try (eexists; split; [reflexivity | exact Hsame]).
  eexists. split; [reflexivity |]. intros ev Hev.
  exists (shift_event (r - s) ev). split; [| right; eauto].
  apply elem_of_cons. right. by apply list_elem_of_fmap_2.
Qed.

Lemma merge_order_events ont h order acc :
  let merged := (foldl (merge_entity ont h) acc order).1 in
  (∀ ev, ev ∈ acc.1 → ev ∈ merged)
  ∧ ∀ e ev, e ∈ order → ev ∈ ChangeSet.events h (Entity.timeline e) →
            ∃ ev', ev' ∈ merged ∧ placed ev ev'.
Proof.
  cbv zeta. revert acc.
  induction order as [|x order IH]; intros [combined finish]; simpl.
  - split; [done | by intros e ev ?%elem_of_nil].
  - destruct (merge_entity_events ont h combined finish x)
      as (added & Heq & Hadded).
    destruct (IH (merge_entity ont h (combined, finish) x)) as [Hkeep Hrest].
    split.
    + intros ev Hev. apply Hkeep. rewrite Heq. apply elem_of_app. auto.
    + intros e ev [-> | He]%elem_of_cons Hev; [| eauto].
      destruct (Hadded ev Hev) as (ev' & Hev' & Hplaced).
      exists ev'. split; [| done]. apply Hkeep. rewrite Heq.
      apply elem_of_app. auto.
Qed.

(** *** Entities and the ends of edges *)

Lemma depends_registered ont a b :
  ont_wf ont → depends ont a b →
  a ∈ Entity.eid <$> entities ont ∧ b ∈ Entity.eid <$> entities ont.
Proof.
  intros Hwf [k Hin].
  apply (elem_of_dependencies_of _ _ _ _ (wf_deps_keys _ Hwf)) in Hin.
  destruct (edge_registered _ _ _ _ Hwf Hin) as [Ha Hb].
  assert (Hkey : ∀ x, x ∈ dict_keys (_entities ont) →
                      x ∈ Entity.eid <$> entities ont).
  { intros x (p & -> & Hp)%list_elem_of_fmap. destruct p as [x e].
    apply list_elem_of_fmap. exists e. split.
    - symmetry. by apply (wf_entities_eid _ Hwf).
    - apply (list_elem_of_fmap_2 snd _ _ Hp). }
  auto.
Qed.

Lemma topological_order_Raise ont h err :
  topological_order score ont h = Raise err →
  err = CycleError "dependency cycle".
Proof. apply topological_rounds_Raise. Qed.

(** An ordering is found only when there is no cycle. *)
Lemma topological_order_Ok_acyclic ont h order :
  ont_wf ont → topological_order score ont h = Ok order → acyclic ont.
Proof.
  intros Hwf Hok a Haa.
  destruct (on_cycle_step _ _ Haa) as (b & Hab & _).
  destruct (depends_registered _ _ _ Hwf Hab) as [(e & -> & He)%list_elem_of_fmap _].
  eapply (topological_rounds_off_cycle _ _ _ _ [] _ Hok); [done | | done..].
  by intros x ?%elem_of_nil.
Qed.

Lemma topological_order_acyclic ont h :
  ont_wf ont → acyclic ont →
  ∃ order, topological_order score ont h = Ok order ∧ order ≡ₚ entities ont.
Proof.
  intros Hwf Hacyc.
  pose proof (topological_rounds_acyclic ont h (length (entities ont))
                (entities ont) [] Hacyc eq_refl) as Hok.
  unfold topological_order.
  destruct (topological_rounds score ont h _ _ _) as [order|err] eqn:E.
  - exists order. split; [done |].
    by eapply topological_rounds_Permutation.
  - exfalso. apply Hok. intros e b He Heb. right.
    by destruct (depends_registered _ _ _ Hwf Heb).
Qed.

(** *** The schedule *)

Lemma multi_entity_schedule_cyclic ont h :
  ont_wf ont → ¬ acyclic ont →
  multi_entity_schedule score ont h
  = (Raise (CycleError "dependency cycle"), h).
Proof.
  intros Hwf Hcyc. unfold multi_entity_schedule.
  destruct (topological_order score ont h) as [order|err] eqn:E.
  - exfalso. by eapply Hcyc, topological_order_Ok_acyclic.
  - by rewrite (topological_order_Raise _ _ _ E).
Qed.

Lemma multi_entity_schedule_acyclic ont h :
  ont_wf ont → acyclic ont →
  ∃ cs h',
    multi_entity_schedule score ont h = (Ok cs, h')
    ∧ h !! cs = None
    ∧ (∀ r, r < length h → h' !! r = h !! r)
    ∧ ∀ e ev, e ∈ entities ont →
        ev ∈ ChangeSet.events h (Entity.timeline e) →
        ∃ ev', ev' ∈ ChangeSet.events h' cs ∧ placed ev ev'.
Proof.
  intros Hwf Hacyc.
  destruct (topological_order_acyclic ont h Hwf Hacyc) as (order & Hok & Hperm).
  unfold multi_entity_schedule, ChangeSet.new. rewrite Hok.
  destruct (merge_order_events ont h order ([], [])) as [_ Hall].
  destruct (foldl (merge_entity ont h) ([], []) order) as [combined finish].
  exists (length h), (h ++ [combined]). split_and!; [done | | |].
  - by apply lookup_ge_None_2.
  - intros r Hr. by rewrite lookup_app_l.
  - intros e ev He Hev. rewrite events_new. apply (Hall e ev); [| done].
    by rewrite Hperm.
Qed.

End navigator_facts.

Lemma add_dependency_depends self a b kind self' :
  add_dependency self a b kind = (Ok tt, self') → depends self' a b.
Proof.
  destruct (add_dependency_cases self a b kind) as [-> | (_ & _ & ->)]; [done |].
  intros [= <-]. exists kind. rewrite dependencies_of_set.
  apply dict_set_elem_new.
Qed.

Lemma add_dependency_depends_other self a b kind self' a' b' :
  add_dependency self a b kind = (Ok tt, self') → a' ≠ a →
  depends self a' b' → depends self' a' b'.
Proof.
  destruct (add_dependency_cases self a b kind) as [-> | (_ & _ & ->)]; [done |].
  intros [= <-] Hne [k Hin]. exists k.
  rewrite dependencies_of_set_ne by done. by destruct self.
Qed.

(** C2: in every reachable state of the Ontology,
    [multi_entity_schedule] raises [CycleError] when the dependency graph has
    a cycle (so after [add_dependency(A, B)] and [add_dependency(B, A)]), and
    otherwise returns a new ChangeSet that holds every event of every entity's
    timeline, as it is or offset, leaving the existing ChangeSets alone.  The
    ordering runs one round per entity, so it always returns. *)
Theorem multi_entity_schedule_cycles gens score ont h :
  reachable gens ont →
  (¬ acyclic ont →
   ∃ msg, multi_entity_schedule score ont h = (Raise (CycleError msg), h))
  ∧ (∀ a b kind_ab kind_ba ont1 ont2,
       add_dependency ont a b kind_ab = (Ok tt, ont1) →
       add_dependency ont1 b a kind_ba = (Ok tt, ont2) →
       ∃ msg, multi_entity_schedule score ont2 h = (Raise (CycleError msg), h))
  ∧ (acyclic ont →
     ∃ cs h',
       multi_entity_schedule score ont h = (Ok cs, h')
       ∧ h !! cs = None
       ∧ (∀ r, r < length h → h' !! r = h !! r)
       ∧ ∀ e ev, e ∈ entities ont →
           ev ∈ ChangeSet.events h (Entity.timeline e) →
           ∃ ev', ev' ∈ ChangeSet.events h' cs ∧ placed ev ev').
Proof.
  intros Hreach. split_and!.
  - intros Hcyc. eexists.
    by apply multi_entity_schedule_cyclic; [eapply reachable_wf |].
  - intros a b kind_ab kind_ba ont1 ont2 H1 H2. eexists.
    apply multi_entity_schedule_cyclic.
    + pose proof (reach_add_dependency gens _ b a kind_ba
                    (reach_add_dependency gens _ a b kind_ab Hreach)) as Hr.
      rewrite H1 in Hr. simpl in Hr. rewrite H2 in Hr. simpl in Hr.
      by eapply reachable_wf.
    + intros Hacyc. apply (Hacyc a).
      pose proof (add_dependency_depends _ _ _ _ _ H2) as Hba.
      destruct (decide (a = b)) as [-> | Hne]; [by apply tc_once |].
      eapply tc_l; [| by apply tc_once].
      eapply add_dependency_depends_other; [done | done |].
      by eapply add_dependency_depends.
  - intros Hacyc. by apply multi_entity_schedule_acyclic; [eapply reachable_wf |].
Qed.

Lemma quickstart_acyclic : acyclic Quickstart.onto.
Proof.
  eapply (topological_order_Ok_acyclic Quickstart.scope_score _ Quickstart.store).
  - eapply reachable_wf, quickstart_reachable.
  - vm_compute. reflexivity.
Qed.

(** C2 at the example's Ontology, and at that Ontology with a cycle. *)
Lemma multi_entity_schedule_cycles_witness :
  (* the example's chain tea <- whale <- petunia, and the cycle tea <-> whale *)
  (reachable Quickstart.gens Quickstart.onto
   ∧ acyclic Quickstart.onto
   ∧ ∃ cs h',
       multi_entity_schedule Quickstart.scope_score Quickstart.onto
         Quickstart.store = (Ok cs, h')
       ∧ ∀ e ev, e ∈ entities Quickstart.onto →
           ev ∈ ChangeSet.events Quickstart.store (Entity.timeline e) →
           ∃ ev', ev' ∈ ChangeSet.events h' cs ∧ placed ev ev')
  ∧ (reachable Quickstart.gens Quickstart.onto_spawned
     ∧ add_dependency Quickstart.onto_spawned "whale_entity" "tea_entity"
         "supports" = (Ok tt, Quickstart.onto_whale_tea)
     ∧ add_dependency Quickstart.onto_whale_tea "tea_entity" "whale_entity"
         "supports" = (Ok tt, Quickstart.onto_cycle)
     ∧ ∃ msg,
         multi_entity_schedule Quickstart.scope_score Quickstart.onto_cycle
           Quickstart.store = (Raise (CycleError msg), Quickstart.store)).
Proof.
  destruct (multi_entity_schedule_cycles Quickstart.gens Quickstart.scope_score
              Quickstart.onto Quickstart.store quickstart_reachable)
    as (_ & _ & Hacyclic).
  destruct (multi_entity_schedule_cycles Quickstart.gens Quickstart.scope_score
              Quickstart.onto_spawned Quickstart.store
              quickstart_spawned_reachable)
    as (_ & Hcycle & _).
  split_and!.
  - apply quickstart_reachable.
  - apply quickstart_acyclic.
  - destruct (Hacyclic quickstart_acyclic) as (cs & h' & Heq & _ & _ & Hall).
    by exists cs, h'.
  - apply quickstart_spawned_reachable.
  - reflexivity.
  - reflexivity.
  - apply (Hcycle "whale_entity" "tea_entity" "supports" "supports"
                  Quickstart.onto_whale_tea Quickstart.onto_cycle);
      reflexivity.
Defined.

(** * Further properties of ontology.py *)

(** ** Schemas: [add_schema] and [schema] *)

Lemma schema_Ok self type_id s :
  schema self type_id = Ok s ↔ dict_get (_schemas self) type_id = Some s.
Proof.
  unfold schema, dict_getitem.
  destruct (dict_get (_schemas self) type_id); split; congruence.
Qed.

(** X1: [add_schema] of a registered [type_id] raises
    [KeyError("Schema '<type_id>' already exists")] and leaves the Ontology as
    it was (the registered schema is not overwritten); of a new [type_id] it
    succeeds, [schema(type_id)] then returns the schema added, every other
    lookup is as before, the new key goes last, and entities and dependencies
    are untouched. *)
Theorem add_schema_registers self sch :
  let r := add_schema self sch in
  (dict_contains (_schemas self) (Schema.type_id sch) = true →
   r = (Raise (KeyError ("Schema '" +:+ Schema.type_id sch +:+ "' already exists")),
        self))
  ∧ (dict_contains (_schemas self) (Schema.type_id sch) = false →
     r.1 = Ok tt
     ∧ schema r.2 (Schema.type_id sch) = Ok sch
     ∧ (∀ type_id, type_id ≠ Schema.type_id sch →
          schema r.2 type_id = schema self type_id)
     ∧ dict_keys (_schemas r.2) = dict_keys (_schemas self) ++ [Schema.type_id sch]
     ∧ _entities r.2 = _entities self
     ∧ _deps r.2 = _deps self).
Proof.
  cbv zeta. unfold add_schema. split; intros Hc; rewrite Hc; [done |].
  simpl. split_and!; [done | | | | done | done].
  - apply schema_Ok. apply dict_get_set_eq.
  - intros type_id Hne. unfold schema, dict_getitem; simpl.
    by rewrite dict_get_set_ne.
  - by rewrite dict_keys_set, Hc.
Qed.

(** X1 at the example: "whale" is new after the first schema, "tea-party" is
    not. *)
Lemma add_schema_registers_witness :
  let self := (add_schema Ontology_init Quickstart.tea_schema).2 in
  (dict_contains (_schemas self) "tea-party" = true
   ∧ add_schema self Quickstart.tea_schema
     = (Raise (KeyError "Schema 'tea-party' already exists"), self))
  ∧ (dict_contains (_schemas self) "whale" = false
     ∧ schema (add_schema self Quickstart.whale_schema).2 "whale"
       = Ok Quickstart.whale_schema
     ∧ schema (add_schema self Quickstart.whale_schema).2 "tea-party"
       = schema self "tea-party").
Proof.
  cbv zeta.
  destruct (add_schema_registers (add_schema Ontology_init Quickstart.tea_schema).2
              Quickstart.tea_schema) as [Hdup _].
  destruct (add_schema_registers (add_schema Ontology_init Quickstart.tea_schema).2
              Quickstart.whale_schema) as [_ Hnew].
  split_and!; [reflexivity | by apply Hdup | reflexivity | |].
  - by apply Hnew.
  - destruct (Hnew eq_refl) as (_ & _ & Hother & _). by apply Hother.
Defined.




(** ** Entities: [spawn] and [entities] *)

Lemma dict_values_set_new {V} (d : dict V) k v :
  dict_contains d k = false → dict_values (dict_set d k v) = dict_values d ++ [v].
Proof.
  unfold dict_values, dict_contains.
  induction d as [|[k0 v0] d IH]; csimpl; [done |].
  case_decide; csimpl; [done |]. intros E. by rewrite IH.
Qed.

(** X3: [entities()] lists the entities in spawn order: a successful [spawn]
    puts the new entity last and keeps the others in place, a failing [spawn]
    changes nothing, and neither [add_schema] nor [add_dependency] touches
    the list. *)
Theorem entities_spawn_order gens self entity_id type_id goal_name generator_fn
    t0 priority h sch depender dependee kind :
  let r :=
    spawn gens self entity_id type_id goal_name generator_fn t0 priority h in
  (∀ ent, r.1.1 = Ok ent → entities r.1.2 = entities self ++ [ent])
  ∧ (∀ e, r.1.1 = Raise e → entities r.1.2 = entities self)
  ∧ entities (add_schema self sch).2 = entities self
  ∧ entities (add_dependency self depender dependee kind).2 = entities self.
Proof.
  cbv zeta. split_and!.
  - intros ent Hok.
    destruct (spawn gens self entity_id type_id goal_name generator_fn t0 priority h)
      as [[r self'] h'] eqn:E. simpl in Hok. subst r.
    apply spawn_Ok_inv in E as (Hd & s & ret & Hs & Hcall & Hent & ->). simpl.
    unfold entities; simpl. by apply dict_values_set_new.
  - intros e He. by rewrite (spawn_Raise_unchanged _ _ _ _ _ _ _ _ _ _ He).
  - unfold add_schema. by destruct (dict_contains _ _).
  - by destruct (add_dependency_cases self depender dependee kind)
      as [-> | (_ & _ & ->)].
Qed.

(** X3 at the example: the whale is spawned after the tea entity. *)
Lemma entities_spawn_order_witness :
  ∃ whale,
    Quickstart.spawn_whale.1.1 = Ok whale
    ∧ entities Quickstart.spawn_whale.1.2
      = entities Quickstart.spawn_tea.1.2 ++ [whale].
Proof.
  destruct (entities_spawn_order Quickstart.gens Quickstart.spawn_tea.1.2
              "whale_entity" "whale" "spontaneous-whale-appearance"
              Quickstart.whale_generator (TFloat 0) 0%Z Quickstart.spawn_tea.2
              Quickstart.tea_schema "" "" "") as (Hok & _).
  eexists. split; [reflexivity |]. apply Hok. reflexivity.
Defined.



(** Case analysis along [spawn]'s three paths, usable outside the section of
    the spawn lemmas. *)
Ltac spawn_by_path self entity_id type_id :=
  let Hd := fresh "Hd" in
  let Hs := fresh "Hs" in
  let s := fresh "s" in
  destruct (spawn_cases self entity_id type_id)
    as [Hd | [[Hd Hs] | [Hd [s Hs]]]];
  [ rewrite spawn_duplicate by exact Hd
  | rewrite spawn_unknown_schema by first [exact Hd | exact Hs]
  | rewrite (spawn_run _ _ _ _ _ _ _ _ _ _ Hd Hs); cbv zeta ].




(** ** What later calls keep *)



Lemma spawn_deps gens self entity_id type_id goal_name generator_fn t0 priority h :
  _deps (spawn gens self entity_id type_id goal_name generator_fn t0 priority h).1.2
  = _deps self.
Proof.
  spawn_by_path self entity_id type_id; [done | done |].
  by destruct (call_generator _ _ _ _) as [[ret|e] h'].
Qed.

Lemma add_schema_deps self sch : _deps (add_schema self sch).2 = _deps self.
Proof. unfold add_schema. by destruct (dict_contains _ _). Qed.

(** One call keeps every registered schema and entity and every dependency,
    and never lowers the number of dependents. *)
Lemma call_keeps gens self self' :
  call gens self self' →
  (∀ type_id s, dict_get (_schemas self) type_id = Some s →
                dict_get (_schemas self') type_id = Some s)
  ∧ (∀ eid e, dict_get (_entities self) eid = Some e →
              dict_get (_entities self') eid = Some e)
  ∧ (∀ a b, depends self a b → depends self' a b)
  ∧ (∀ eid, length (dependents_of self eid) ≤ length (dependents_of self' eid)).
Proof.
  destruct 1 as [self sch
                | self entity_id type_id goal_name generator_fn t0 priority h
                | self depender dependee kind].
  - pose proof (add_schema_deps self sch) as Hdeps. revert Hdeps.
    unfold add_schema.
    destruct (dict_contains (_schemas self) (Schema.type_id sch)) eqn:Hc;
      simpl; intros Hdeps.
    { split_and!; auto. }
    split_and!; [| done | done | done].
    intros type_id s Hs. rewrite dict_get_set_ne; [done |].
    intros <-. unfold dict_contains in Hc. by rewrite Hs in Hc.
  - pose proof (spawn_deps gens self entity_id type_id goal_name generator_fn
                  t0 priority h) as Hdeps.
    destruct (spawn gens self entity_id type_id goal_name generator_fn t0 priority h)
      as [[[ent|e] self'] h'] eqn:E; simpl in *.
    + apply spawn_Ok_inv in E as (Hd & s & ret & Hs & Hcall & -> & ->). simpl.
      split_and!; [done | | done | done].
      intros eid e He. rewrite dict_get_set_ne; [done |].
      intros <-. unfold dict_contains in Hd. by rewrite He in Hd.
    + pose proof (spawn_Raise_unchanged gens self entity_id type_id goal_name
                    generator_fn t0 priority h e) as Hu.
      rewrite E in Hu. simpl in Hu. rewrite Hu by done. split_and!; auto.
  - destruct (add_dependency_cases self depender dependee kind)
      as [-> | (Ha & Hb & Heq)]; [split_and!; auto |].
    rewrite Heq. simpl. split_and!; [done | done | |].
    + intros a b [k Hin]. unfold depends.
      destruct (decide (a = depender)) as [-> | Hne].
      * rewrite dependencies_of_set.
        destruct (decide (b = dependee)) as [-> | Hb'].
        -- exists kind. apply dict_set_elem_new.
        -- exists k. by apply dict_set_elem_old.
      * exists k. rewrite dependencies_of_set_ne by done. by destruct self.
    + intros eid.
      rewrite (add_dependency_dependents_length _ _ _ _ _ eid Heq). lia.
Qed.

(** X8: nothing is ever unregistered.  After any number of later calls
    ([add_schema], [spawn], [add_dependency], succeeding or failing) a
    registered schema is still returned by [schema], a registered entity is
    still stored unchanged under its identifier, every dependency is still
    there (its kind may have been overwritten), and so [add_dependency]
    between two entities registered now succeeds at any later time. *)
Theorem registrations_persist gens self self' :
  later gens self self' →
  (∀ type_id s, schema self type_id = Ok s → schema self' type_id = Ok s)
  ∧ (∀ eid e, dict_get (_entities self) eid = Some e →
              dict_get (_entities self') eid = Some e)
  ∧ (∀ a b, depends self a b → depends self' a b)
  ∧ (∀ a b kind,
       dict_contains (_entities self) a = true →
       dict_contains (_entities self) b = true →
       (add_dependency self' a b kind).1 = Ok tt).
Proof.
  intros Hlater.
  assert (H3 : (∀ type_id s, dict_get (_schemas self) type_id = Some s →
                             dict_get (_schemas self') type_id = Some s)
               ∧ (∀ eid e, dict_get (_entities self) eid = Some e →
                           dict_get (_entities self') eid = Some e)
               ∧ (∀ a b, depends self a b → depends self' a b)).
  { induction Hlater as [self | self mid self' Hcall _ (IH1 & IH2 & IH3)];
      [done |].
    destruct (call_keeps _ _ _ Hcall) as (H1 & H2 & H3 & _).
    split_and!; eauto. }
  destruct H3 as (H1 & H2 & H3). split_and!; [| done | done |].
  - intros type_id s ?%schema_Ok. apply schema_Ok. auto.
  - intros a b kind Ha Hb.
    assert (Hstill : ∀ x, dict_contains (_entities self) x = true →
                          dict_contains (_entities self') x = true).
    { intros x. unfold dict_contains.
      destruct (dict_get (_entities self) x) as [e|] eqn:E; [| done].
      by rewrite (H2 _ _ E). }
    by rewrite add_dependency_Ok by auto.
Qed.

Lemma quickstart_later : later Quickstart.gens Quickstart.spawn_tea.1.2 Quickstart.onto.
Proof.
  eapply rtc_l; [apply (call_spawn Quickstart.gens _ "whale_entity" "whale"
                          "spontaneous-whale-appearance"
                          Quickstart.whale_generator (TFloat 0) 0%Z
                          Quickstart.spawn_tea.2) |].
  eapply rtc_l; [apply (call_spawn Quickstart.gens _ "petunia_entity" "petunia"
                          "petunia-uprising" Quickstart.petunia_generator
                          (TFloat 0) 0%Z Quickstart.spawn_whale.2) |].
  eapply rtc_l; [apply (call_add_dependency Quickstart.gens _ "whale_entity"
                          "tea_entity" "supports") |].
  eapply rtc_l; [apply (call_add_dependency Quickstart.gens _ "petunia_entity"
                          "whale_entity" "supports") |].
  apply rtc_refl.
Qed.

(** X8 at the example: the tea entity, spawned first, is still registered
    unchanged at the end. *)
Lemma registrations_persist_witness :
  later Quickstart.gens Quickstart.spawn_tea.1.2 Quickstart.onto
  ∧ schema Quickstart.onto "tea-party" = Ok Quickstart.tea_schema
  ∧ dict_get (_entities Quickstart.onto) "tea_entity"
    = dict_get (_entities Quickstart.spawn_tea.1.2) "tea_entity"
  ∧ (add_dependency Quickstart.onto "tea_entity" "tea_entity" "supports").1
    = Ok tt.
Proof.
  destruct (registrations_persist Quickstart.gens Quickstart.spawn_tea.1.2
              Quickstart.onto quickstart_later) as (Hs & He & _ & Hadd).
  split_and!; [apply quickstart_later | by apply Hs | | by apply Hadd].
  pose proof (He "tea_entity" _ eq_refl) as Htea.
  rewrite Htea. reflexivity.
Defined.

(** X9: the effective priority of an entity never goes down: after any
    number of later calls it is at least what it was. *)
Theorem effective_priority_grows gens self self' e :
  later gens self self' →
  (effective_priority e self ≤ effective_priority e self')%Z.
Proof.
  intros Hlater. rewrite !effective_priority_eq.
  assert (length (dependents_of self (Entity.eid e))
          ≤ length (dependents_of self' (Entity.eid e))); [| lia].
  induction Hlater as [self | self mid self' Hcall _ IH]; [done |].
  destruct (call_keeps _ _ _ Hcall) as (_ & _ & _ & Hlen).
  specialize (Hlen (Entity.eid e)). lia.
Qed.

(** X9 at the example's tea entity, from its spawn to the end. *)
Lemma effective_priority_grows_witness :
  let tea :=
    Entity.mk "tea_entity" Quickstart.tea_schema
      (goal_event "tea_entity" "tea-party-with-Vogon" (TFloat 0) 0) 1
      Quickstart.tea_generator 0 in
  later Quickstart.gens Quickstart.spawn_tea.1.2 Quickstart.onto
  ∧ (effective_priority tea Quickstart.spawn_tea.1.2
     ≤ effective_priority tea Quickstart.onto)%Z.
Proof.
  cbv zeta. split; [apply quickstart_later |].
  apply (effective_priority_grows Quickstart.gens), quickstart_later.
Defined.

(** ** The two views of an edge: [Entity.dependencies] and
    [Entity.dependents] *)

(** X10: in every reachable state the two views agree: [e1] lists [e2] among
    its dependencies with some kind exactly when [e2] lists [e1] among its
    dependents with that kind. *)
Theorem dependencies_dependents_dual gens ont e1 e2 kind :
  reachable gens ont →
  (Entity.eid e2, kind) ∈ dependencies e1 ont
  ↔ (Entity.eid e1, kind) ∈ dependents e2 ont.
Proof.
  intros Hwf%reachable_wf. unfold dependencies, dependents.
  rewrite elem_of_dependents_of.
  apply elem_of_dependencies_of, Hwf.
Qed.

(** X10 at the example: the whale depends on the tea entity. *)
Lemma dependencies_dependents_dual_witness :
  let tea :=
    Entity.mk "tea_entity" Quickstart.tea_schema
      (goal_event "tea_entity" "tea-party-with-Vogon" (TFloat 0) 0) 1
      Quickstart.tea_generator 0 in
  let whale :=
    Entity.mk "whale_entity" Quickstart.whale_schema
      (goal_event "whale_entity" "spontaneous-whale-appearance" (TFloat 0) 0) 3
      Quickstart.whale_generator 0 in
  reachable Quickstart.gens Quickstart.onto
  ∧ dependencies whale Quickstart.onto = [("tea_entity", "supports")]
  ∧ ("whale_entity", "supports") ∈ dependents tea Quickstart.onto.
Proof.
  cbv zeta. split_and!; [apply quickstart_reachable | reflexivity |].
  refine (proj1 (dependencies_dependents_dual Quickstart.gens Quickstart.onto
                   (Entity.mk "whale_entity" Quickstart.whale_schema
                      (goal_event "whale_entity" "spontaneous-whale-appearance"
                         (TFloat 0) 0) 3 Quickstart.whale_generator 0)
                   (Entity.mk "tea_entity" Quickstart.tea_schema
                      (goal_event "tea_entity" "tea-party-with-Vogon" (TFloat 0) 0)
                      1 Quickstart.tea_generator 0)
                   "supports" quickstart_reachable) _).
  vm_compute. apply list_elem_of_singleton. reflexivity.
Defined.

(** ** How [add_dependency] composes *)

(** X11: the last write wins.  Adding an edge for a pair and then adding it
    again with another kind gives the same Ontology and the same outcome as
    adding it once with the second kind; in particular adding the same edge
    twice is the same as adding it once. *)
Theorem add_dependency_last_wins self depender dependee kind1 kind2 :
  add_dependency (add_dependency self depender dependee kind1).2
    depender dependee kind2
  = add_dependency self depender dependee kind2.
Proof.
  destruct (add_dependency_cases self depender dependee kind1)
    as [-> | (Ha & Hb & ->)]; [done |].
  cbn [snd]. rewrite !add_dependency_Ok by done. cbn [_schemas _entities _deps].
  rewrite dependencies_of_set. by rewrite !dict_set_set.
Qed.

(** X12: a successful [add_dependency] changes the effective priority of the
    dependee only: every other entity keeps its effective priority, and when
    the pair already had an edge (the call overwrites its kind) the dependee
    keeps its own as well. *)
Theorem add_dependency_priority_frame self depender dependee kind self' :
  add_dependency self depender dependee kind = (Ok tt, self') →
  (∀ e, Entity.eid e ≠ dependee →
        effective_priority e self' = effective_priority e self)
  ∧ (dict_contains (dependencies_of self depender) dependee = true →
     ∀ e, effective_priority e self' = effective_priority e self).
Proof.
  intros Hadd. split.
  - intros e Hne. rewrite !effective_priority_eq.
    rewrite (add_dependency_dependents_length _ _ _ _ _ _ Hadd).
    rewrite decide_False by done. lia.
  - intros Hc e. rewrite !effective_priority_eq.
    rewrite (add_dependency_dependents_length _ _ _ _ _ _ Hadd).
    rewrite Hc. destruct (decide _); lia.
Qed.

(** X12 at the example: the whale's edge to the tea entity, added once more
    with another kind. *)
Lemma add_dependency_priority_frame_witness :
  let tea :=
    Entity.mk "tea_entity" Quickstart.tea_schema
      (goal_event "tea_entity" "tea-party-with-Vogon" (TFloat 0) 0) 1
      Quickstart.tea_generator 0 in
  ∃ self',
    add_dependency Quickstart.onto "whale_entity" "tea_entity" "requires"
    = (Ok tt, self')
    ∧ dict_contains (dependencies_of Quickstart.onto "whale_entity") "tea_entity"
      = true
    ∧ effective_priority tea self' = effective_priority tea Quickstart.onto
    ∧ effective_priority tea self' = 1%Z.
Proof.
  cbv zeta. eexists. split; [reflexivity |]. split; [reflexivity |].
  split; [| reflexivity].
  eapply (add_dependency_priority_frame Quickstart.onto "whale_entity"
            "tea_entity" "requires"); reflexivity.
Defined.

(** ** A newly spawned entity *)




(** ** Bounds on the pull *)

Lemma incoming_from_absent eid depender (d : dict string) :
  eid ∉ dict_keys d → incoming_from eid depender d = [].
Proof.
  unfold incoming_from, dict_items, dict_keys.
  induction d as [|[b k] d IH]; csimpl; [done |].
  rewrite not_elem_of_cons. intros [Hne Hd].
  rewrite decide_False by done. simpl. auto.
Qed.

Lemma incoming_from_length eid depender (d : dict string) :
  NoDup (dict_keys d) → length (incoming_from eid depender d) ≤ 1.
Proof.
  unfold dict_keys. induction d as [|[b k] d IH]; csimpl; [lia |].
  rewrite NoDup_cons. intros [Hb Hd].
  change (length ((if decide (b = eid) then [(depender, k)] else [])
                  ++ incoming_from eid depender d) ≤ 1).
  rewrite length_app. destruct (decide (b = eid)) as [-> | Hne]; simpl.
  - by rewrite incoming_from_absent.
  - by apply IH.
Qed.

Lemma dependents_of_length ont eid :
  ont_wf ont → length (dependents_of ont eid) ≤ length (entities ont).
Proof.
  intros Hwf. trans (length (_deps ont)).
  - rewrite dependents_of_incoming.
    pose proof (wf_deps_inner _ Hwf) as Hinner.
    induction (_deps ont) as [|[a d] D IH]; csimpl; [lia |].
    rewrite length_app.
    pose proof (incoming_from_length eid a d (Hinner a d ltac:(by left))).
    assert (length (D ≫= λ '(depender, d0), incoming_from eid depender d0)
            ≤ length D); [| lia].
    apply IH. intros a' d' ?. apply (Hinner a' d'). by right.
  - unfold entities, dict_values. rewrite length_fmap.
    rewrite <- (length_fmap fst (_deps ont)), <- (length_fmap fst (_entities ont)).
    apply submseteq_length, NoDup_submseteq; [apply Hwf |].
    intros a (p & -> & Hp)%list_elem_of_fmap. destruct p as [a d].
    by apply (wf_deps_depender _ Hwf a d).
Qed.

(** X14: in every reachable state the effective priority of an entity lies
    between its base priority and its base priority plus the number of
    entities: each entity pulls at most once. *)
Theorem effective_priority_bounds gens ont e :
  reachable gens ont →
  (Entity.priority e ≤ effective_priority e ont
   ≤ Entity.priority e + Z.of_nat (length (entities ont)))%Z.
Proof.
  intros Hwf%reachable_wf. rewrite effective_priority_eq.
  pose proof (dependents_of_length ont (Entity.eid e) Hwf). lia.
Qed.

(** X14 at the example's tea entity. *)
Lemma effective_priority_bounds_witness :
  let tea :=
    Entity.mk "tea_entity" Quickstart.tea_schema
      (goal_event "tea_entity" "tea-party-with-Vogon" (TFloat 0) 0) 1
      Quickstart.tea_generator 0 in
  reachable Quickstart.gens Quickstart.onto
  ∧ (Entity.priority tea ≤ effective_priority tea Quickstart.onto
     ≤ Entity.priority tea + Z.of_nat (length (entities Quickstart.onto)))%Z.
Proof.
  cbv zeta. split; [apply quickstart_reachable |].
  apply (effective_priority_bounds Quickstart.gens), quickstart_reachable.
Defined.

(** ** Every edge is counted once at each end *)












(** ** The order of [dependencies_of] *)

Lemma dict_set_new {V} (d : dict V) k v :
  dict_contains d k = false → dict_set d k v = d ++ [(k, v)].
Proof.
  unfold dict_contains. induction d as [|[k0 v0] d IH]; simpl; [done |].
  case_decide; [done |]. intros E. by rewrite IH.
Qed.

(** X16: [dependencies_of] lists the dependees in the order their edges were
    first added: after a successful [add_dependency] a dependee that is new
    for the depender comes last, an overwritten edge keeps its place, and the
    lists of all other dependers are as before. *)
Theorem dependencies_of_order self depender dependee kind self' :
  add_dependency self depender dependee kind = (Ok tt, self') →
  (dict_contains (dependencies_of self depender) dependee = false →
   dependencies_of self' depender
   = dependencies_of self depender ++ [(dependee, kind)])
  ∧ (dict_contains (dependencies_of self depender) dependee = true →
     (dependencies_of self' depender).*1 = (dependencies_of self depender).*1)
  ∧ (∀ other, other ≠ depender →
       dependencies_of self' other = dependencies_of self other).
Proof.
  destruct (add_dependency_cases self depender dependee kind)
    as [-> | (_ & _ & ->)]; [done |].
  intros [= <-]. rewrite dependencies_of_set. split_and!.
  - apply dict_set_new.
  - intros Hc. pose proof (dict_keys_set (dependencies_of self depender)
                              dependee kind) as Hk.
    unfold dict_keys in Hk. by rewrite Hc in Hk.
  - intros other Hne. rewrite dependencies_of_set_ne by done. by destruct self.
Qed.

(** X16 at the example: a second dependency of the whale comes after its
    first. *)
Lemma dependencies_of_order_witness :
  ∃ self',
    add_dependency Quickstart.onto "whale_entity" "petunia_entity" "supports"
    = (Ok tt, self')
    ∧ dict_contains (dependencies_of Quickstart.onto "whale_entity")
        "petunia_entity" = false
    ∧ dependencies_of self' "whale_entity"
      = [("tea_entity", "supports"); ("petunia_entity", "supports")].
Proof.
  eexists. split; [reflexivity |]. split; [reflexivity |].
  eapply (proj1 (dependencies_of_order Quickstart.onto "whale_entity"
                   "petunia_entity" "supports" _ eq_refl)).
  reflexivity.
Defined.
